(** * Optima SDK (src/optima.js): a shallow embedding and its properties

    The agent is a single-threaded, callback-driven JavaScript object.  It is
    embedded here by explicit state passing: every method of the source
    becomes a function on the record of the instance's fields, every host
    callback (listener, observer, timer, promise continuation) becomes a
    function from the world before the callback to the world after it, and
    the requests handed to the transport are appended to an outbox.

    Conventions.
    - JavaScript numbers that carry times, sizes and durations are integers
      ([Z]); only order, equality, addition and subtraction are used on them.
    - Layout-shift scores are fractional.  Their accumulation is defined for
      any type of scores and any addition on it; in the agent's records a
      score is carried like the other numbers.
    - [Date.now()] is an input: each host callback receives one clock
      reading [now].
    - [undefined]/[null] fields are [option]s; a configuration key the
      constructor never defines is [None]. *)

From Stdlib Require Import ZArith String Ascii List Bool Lia.
From stdpp Require Import base decidable option list gmap strings.
Import ListNotations.
Open Scope string_scope.
Open Scope Z_scope.

(** ** JavaScript helpers *)

Module Js.

(** [s.includes(sub)] *)
Fixpoint includes (sub s : string) : bool :=
  String.prefix sub s ||
  match s with
  | EmptyString => false
  | String _ s' => includes sub s'
  end.

(** [s.indexOf(sub) > -1] is the same test. *)
Definition indexOf_found (sub s : string) : bool := includes sub s.

(** [s.split('?')[0]]: the part of [s] before its first question mark. *)
Fixpoint before_query (s : string) : string :=
  match s with
  | EmptyString => EmptyString
  | String c s' => if Ascii.eqb c "?"%char then EmptyString else String c (before_query s')
  end.

(** Truthiness of a string value: the empty string is falsy. *)
Definition truthy (s : string) : bool := negb (String.eqb s "").

(** Truthiness of a possibly absent string. *)
Definition truthy_opt (o : option string) : bool :=
  match o with
  | Some s => truthy s
  | None => false
  end.

(** ASCII lower-casing, for the [/i] flag of the extension patterns. *)
Definition lower (c : ascii) : ascii :=
  let n := nat_of_ascii c in
  if (Nat.leb 65 n && Nat.leb n 90)%bool then ascii_of_nat (n + 32) else c.

Fixpoint lowercase (s : string) : string :=
  match s with
  | EmptyString => EmptyString
  | String c s' => String (lower c) (lowercase s')
  end.

(** After a dot: one of the extensions, then a question mark or the end. *)
Definition ext_here (exts : list string) (rest : string) : bool :=
  existsb (fun e =>
    String.prefix e (lowercase rest) &&
    match String.substring (String.length e) 1 rest with
    | EmptyString => true
    | String c _ => Ascii.eqb c "?"%char
    end) exts.

(** [/\.(?:e1|e2|...)(?:\?|$)/i.test(url)] *)
Fixpoint test_ext (exts : list string) (url : string) : bool :=
  match url with
  | EmptyString => false
  | String c rest =>
      (Ascii.eqb c "."%char && ext_here exts rest) || test_ext exts rest
  end.

(** [arr.slice(start)]: a negative [start] counts from the end, and both
    ends are clamped to the array. *)
Definition slice_from {A} (start : Z) (l : list A) : list A :=
  let len := Z.of_nat (length l) in
  let k := if start <? 0 then Z.max (len + start) 0 else Z.min start len in
  drop (Z.to_nat k) l.

(** [arr.slice(0, end)] for a non-negative or negative [end]. *)
Definition slice_to {A} (stop : Z) (l : list A) : list A :=
  let len := Z.of_nat (length l) in
  let k := if stop <? 0 then Z.max (len + stop) 0 else Z.min stop len in
  take (Z.to_nat k) l.

End Js.

(** ** Promises and completions

    A promise is represented by its settlement.  [then_] and [catch_] follow
    the Promises/A+ rules: a handler's own throw or rejected result becomes
    the rejection of the derived promise. *)

Inductive JsError :=
| TypeError (msg : string)
| Error (msg : string).

Inductive Settled (A : Type) :=
| Fulfilled (a : A)
| Rejected (e : JsError).
Arguments Fulfilled {A} a.
Arguments Rejected {A} e.

Definition then_ {A B} (p : Settled A) (f : A -> Settled B) : Settled B :=
  match p with
  | Fulfilled a => f a
  | Rejected e => Rejected e
  end.

Definition catch_ {A} (p : Settled A) (h : JsError -> Settled A) : Settled A :=
  match p with
  | Fulfilled a => Fulfilled a
  | Rejected e => h e
  end.

(** The completion of a synchronous call: a value or a thrown exception. *)
Inductive Completion (A : Type) :=
| Normal (a : A)
| Throw (e : JsError).
Arguments Normal {A} a.
Arguments Throw {A} e.

(** ** Transport: [sendToServer] *)

Module Transport.
Section Transport.

(** The payload type and its [JSON.stringify], which throws on a value it
    cannot serialise. *)
Context {Data : Type} (stringify : Data -> Completion string).

Record RequestOptions := {
  method : string;
  content_type : string;
  x_api_key : option string;
  body : string
}.

(** What the server answered: [response.ok], [response.status] and the
    promise of [response.json()]. *)
Record Response := {
  ok : bool;
  status : Z;
  json : Settled string
}.

(** The host primitives the transport consumes.  [sendBeacon] is [None] when
    [navigator.sendBeacon] is absent; when present it queues the request and
    says whether it did, or throws (a [TypeError] for a URL that is not
    HTTP(S)).  [fetch] is whatever [window.fetch] is at the time of the call:
    it hands back the promise of the response, or throws. *)
Record Host := {
  sendBeacon : option (string -> string -> Completion bool);
  fetch : string -> RequestOptions -> Completion (Settled Response)
}.

(** The host calls one [sendToServer] makes, in order. *)
Inductive HostCall :=
| CallBeacon (url blob : string)
| CallFetch (url : string) (opts : RequestOptions).

(** The host calls made, and how the call completes: with the promise it
    returns, or with the exception that leaves it.  No statement of the
    function sits in a [try]. *)
Definition sendToServer (host : Host) (endpoint path : string) (data : Data)
    (apiKey : option string) (sync : bool)
    : list HostCall * Completion (Settled bool) :=
  let url := endpoint +:+ path in
  match stringify data with
  | Throw e => ([], Throw e)
  | Normal serialised =>
      let requestOptions :=
        {| method := "POST"; content_type := "application/json";
           x_api_key := apiKey; body := serialised |} in
      match (if sync then sendBeacon host else None) with
      | Some beacon =>
          match stringify data with
          | Throw e => ([], Throw e)
          | Normal blob =>
              ([CallBeacon url blob],
               match beacon url blob with
               | Throw e => Throw e
               | Normal result => Normal (Fulfilled result)
               end)
          end
      | None =>
          ([CallFetch url requestOptions],
           match fetch host url requestOptions with
           | Throw e => Throw e
           | Normal response_promise =>
               Normal
                 (catch_
                    (then_
                       (then_ response_promise
                          (fun response =>
                             if negb (ok response)
                             then Rejected (Error "Server responded with status")
                             else json response))
                       (fun _ => Fulfilled true))
                    (fun _ => Fulfilled false))
           end)
      end
  end.

End Transport.
End Transport.

(** ** Network-call records *)

Inductive CallKind := KindXhr | KindFetch.

Record AjaxCall := {
  call_type : CallKind;
  call_method : string;
  call_url : string;
  call_status : Z;
  call_startTime : Z;
  call_duration : Z;
  requestPayloadSize : Z;
  responseSize : Z;
  aborted : bool;
  errored : bool;
  timedOut : bool;
  errorMessage : option string
}.
(* The header and resource-timing sub-records of the source's record are
   left out: nothing below reads them. *)

(** ** Fetch interception: [monitorFetchAPI] *)

Module FetchMonitor.

(** The first argument of [fetch]: a string, a [Request], or any other
    object the platform accepts and stringifies (a [URL], for instance). *)
Inductive Input :=
| InString (url : string)
| InRequest (url method : string)
| InObject (href : string).

Inductive Body :=
| BodyString (s : string)
| BodyFormData
| BodyBlob (size : Z)
| BodyArrayBuffer (byteLength : Z)
| BodyOther (json : option string).   (* [None]: [JSON.stringify] throws *)

Record Init := {
  init_method : option string;
  init_body : option Body
}.

(** The paths of the agent's own endpoints that the wrapper skips. *)
Definition own_paths : list string :=
  ["/api/sessions"; "/api/events"; "/api/resources"; "/api/web-vitals"; "/api/ajax-calls"].

Definition is_own_call (url : string) : bool :=
  existsb (fun p => Js.includes p url) own_paths.

Definition body_size (b : Body) : Z :=
  match b with
  | BodyString s => Z.of_nat (String.length s)
  | BodyFormData => -1
  | BodyBlob size => size
  | BodyArrayBuffer n => n
  | BodyOther (Some j) => Z.of_nat (String.length j)
  | BodyOther None => -1
  end.

(** [init.body] as a condition: only the empty string is falsy. *)
Definition body_truthy (b : Body) : bool :=
  match b with
  | BodyString s => Js.truthy s
  | _ => true
  end.

(** What one call of the instrumented [fetch] did: the calls it made to the
    original [fetch], the record whose completion it scheduled on the
    promise (if any), and what the caller gets back. *)
Record Outcome (P : Type) := {
  original_calls : list (Input * option Init);
  capture : option AjaxCall;
  returned : Completion P
}.
Arguments original_calls {P} _.
Arguments capture {P} _.
Arguments returned {P} _.

Section Wrapper.
(** [P] is the type of promise objects the original [fetch] returns. *)
Context {P : Type} (originalFetch : Input -> option Init -> P).

Definition instrumented_fetch (now : Z) (input : Input) (init : option Init)
    : Outcome P :=
  let url : option string :=
    match input with
    | InString u => Some u
    | InRequest u _ => Some u
    | InObject _ => None
    end in
  let method0 : option string :=
    match input with
    | InRequest _ m => Some m
    | _ => None
    end in
  let method1 : option string :=
    match init with
    | Some i => Some (if Js.truthy_opt (init_method i)
                      then default "GET" (init_method i) else "GET")
    | None => method0
    end in
  let method := if Js.truthy_opt method1 then default "GET" method1 else "GET" in
  match url with
  | None =>
      (* [url.includes] on [undefined] *)
      {| original_calls := []; capture := None;
         returned := Throw (TypeError "Cannot read properties of undefined") |}
  | Some url =>
      if is_own_call url then
        {| original_calls := [(input, init)]; capture := None;
           returned := Normal (originalFetch input init) |}
      else
        let startTime := now in
        let size :=
          match init with
          | Some i => match init_body i with
                      | Some b => if body_truthy b then body_size b else -1
                      | None => -1
                      end
          | None => -1
          end in
        let ajaxCallData :=
          {| call_type := KindFetch; call_method := method; call_url := url;
             call_status := 0; call_startTime := startTime; call_duration := 0;
             requestPayloadSize := size; responseSize := -1;
             aborted := false; errored := false; timedOut := false;
             errorMessage := None |} in
        let fetchPromise := originalFetch input init in
        {| original_calls := [(input, init)]; capture := Some ajaxCallData;
           returned := Normal fetchPromise |}
  end.

End Wrapper.

(** The settlement of the observed promise, as the capture handlers see it:
    a response with its status, its content-length header and the length of
    its text (absent when reading the clone fails), or a rejection. *)
Inductive Settlement :=
| Responded (status : Z) (content_length : option Z) (text_length : option Z)
| Failed (message : string).

(** The record the [then]/[catch] handlers hand to [storeAjaxCallData];
    [None] when reading the response text fails (the inner [catch] swallows
    the error and nothing is stored). *)
Definition complete_capture (c : AjaxCall) (now : Z) (r : Settlement) : option AjaxCall :=
  match r with
  | Responded st cl (Some tl) =>
      let size := match cl with
                  | Some n => if n <? 0 then tl else n
                  | None => tl
                  end in
      Some {| call_type := call_type c; call_method := call_method c;
              call_url := call_url c; call_status := st;
              call_startTime := call_startTime c;
              call_duration := now - call_startTime c;
              requestPayloadSize := requestPayloadSize c; responseSize := size;
              aborted := false; errored := false; timedOut := false;
              errorMessage := None |}
  | Responded _ _ None => None
  | Failed msg =>
      Some {| call_type := call_type c; call_method := call_method c;
              call_url := call_url c; call_status := call_status c;
              call_startTime := call_startTime c;
              call_duration := now - call_startTime c;
              requestPayloadSize := requestPayloadSize c;
              responseSize := responseSize c;
              aborted := false; errored := true; timedOut := false;
              errorMessage := Some (if Js.truthy msg then msg else "Network error") |}
  end.

End FetchMonitor.

(** ** The agent's data model *)

Record DomElement := {
  tagName : string;
  elem_id : string;
  className : string;
  boundingRect : option (Z * Z)     (* rounded width and height *)
}.

(** [s || null] *)
Definition or_null (s : string) : option string :=
  if Js.truthy s then Some s else None.

(** The element description the LCP observer attaches, or ['unknown']. *)
Inductive ElementInfo :=
| ElementUnknown
| ElementOf (tag : string) (id cls : option string) (size : Z) (dimensions : option (Z * Z)).

Record InputDetails := {
  input_type : string;
  targetElement : option (string * option string * option string);
  timing : Z * Z * Z        (* processingStart, processingEnd, startTime *)
}.

(** The signal-specific part of a vital record. *)
Inductive VitalDetail :=
| DetailLCP (element : ElementInfo)
| DetailFID (inputType : option string) (details : option InputDetails)
| DetailCLS (entries : option Z) (session : option (Z * Z))
| DetailINP (interaction : option string)
| DetailTTFB.

Record VitalRecord := {
  value : Z;
  timestamp : Z;
  detail : VitalDetail
}.

(** [event_data] of a [core_web_vital] event that carries a name. *)
Record VitalData := {
  vd_name : string;
  vd_value : Z;
  vd_element : option ElementInfo;
  vd_inputType : option string;
  vd_details : option InputDetails;
  vd_entries : option Z
}.

Inductive EventData :=
| DataVital (d : VitalData)
| DataOther (tag : string).     (* any payload without a [name] *)

Record Event := {
  ev_session_id : string;
  event_type : string;
  event_data : EventData;
  ev_timestamp : Z
}.

(** A [PerformanceResourceTiming] entry of the host. *)
Record ResourceEntry := {
  re_name : string;
  re_initiatorType : string;
  re_nextHopProtocol : string;
  re_startTime : Z;
  re_duration : Z;
  re_transferSize : Z;
  re_encodedBodySize : Z;
  re_decodedBodySize : Z
}.

(** The simplified resource object the agent keeps. *)
Record Resource := {
  res_name : string;
  res_type : string;
  res_startTime : Z;
  res_duration : Z;
  res_size : Z;
  res_protocol : string;
  res_encodedSize : Z;
  res_decodedSize : Z;
  res_initiatorType : string
}.

Record NavigationEntry := {
  responseStart : Z;
  nav_duration : Z;
  nav_type : string
}.

(** Ambient facts of the page that the agent reads but never writes. *)
Record Page := {
  href : string;
  pathname : string;
  title : string;
  referrer : string;
  userAgent : string;
  timeOrigin : Z
}.

Inductive Visibility := Visible | Hidden.

Record Meta := {
  meta_url : string;
  meta_path : string;
  meta_title : string;
  meta_user_agent : string;
  page_visibility : Visibility;
  visibility_changes : Z;
  meta_timestamp : Z;
  browser : string;
  os : string
}.

Record WebVitals := {
  LCP : option VitalRecord;
  FID : option VitalRecord;
  CLS : option VitalRecord;
  TTFB : option VitalRecord;
  INP : option VitalRecord
}.

Record UnifiedDataModel := {
  session_id : option string;
  model_timestamp : option Z;
  web_vitals : WebVitals;
  resources : list Resource;
  ajax_requests : list AjaxCall;
  timings : option NavigationEntry;
  meta : option Meta               (* [None] is the initial [{}] *)
}.

Record Buffer := {
  events : list Event;
  buf_resources : list Resource;
  webVitals : list Event;
  ajaxCalls : list AjaxCall;
  preSessionAjaxCalls : option (list AjaxCall)   (* [None]: the key is absent *)
}.

(** [batchConfig].  The last four keys are read by the buffer manager but
    are not among those the constructor defines. *)
Record BatchConfig := {
  maxEventsPerBatch : Z;
  maxResourcesPerBatch : Z;
  maxWebVitalsPerBatch : Z;
  maxAjaxCallsPerBatch : Z;
  flushInterval : Z;
  maxBufferSize : option Z;
  resourceDedupingEnabled : option bool;
  visibilityFlushEnabled : option bool;
  flushAtIdle : option bool
}.

Record CollectionState := {
  resourcesCollected : bool;
  lastAjaxCallFlush : option Z;
  isBatchProcessingStarted : bool;
  unloadSent : bool;
  visibilityChangeCount : Z;
  pageLoaded : bool;
  resourceHashMap : option (gmap string Z)   (* never initialised by the constructor *)
}.

Record Sdk := {
  apiKey : option string;
  endpoint : string;
  sessionId : option string;
  sessionStartTime : option Z;
  buffer : Buffer;
  unifiedDataModel : UnifiedDataModel;
  batchConfig : BatchConfig;
  collectionState : CollectionState
}.

(** What the agent hands to [_sendToServer]. *)
Inductive Payload :=
| SessionData (session_id : string) (page : Page) (at_time : Z)
| UnifiedData (snapshot : UnifiedDataModel)
| AjaxBatch (session_id : option string) (ajax_calls : list AjaxCall) (at_time : Z) (count : Z).

Record Transmission := {
  tx_path : string;
  tx_data : Payload;
  tx_sync : bool
}.

(** *** Field updates *)

Definition with_web_vitals (f : WebVitals -> WebVitals) (m : UnifiedDataModel) : UnifiedDataModel :=
  {| session_id := session_id m; model_timestamp := model_timestamp m;
     web_vitals := f (web_vitals m); resources := resources m;
     ajax_requests := ajax_requests m; timings := timings m; meta := meta m |}.

Definition set_LCP (r : VitalRecord) (v : WebVitals) : WebVitals :=
  {| LCP := Some r; FID := FID v; CLS := CLS v; TTFB := TTFB v; INP := INP v |}.
Definition set_FID (r : VitalRecord) (v : WebVitals) : WebVitals :=
  {| LCP := LCP v; FID := Some r; CLS := CLS v; TTFB := TTFB v; INP := INP v |}.
Definition set_CLS (r : VitalRecord) (v : WebVitals) : WebVitals :=
  {| LCP := LCP v; FID := FID v; CLS := Some r; TTFB := TTFB v; INP := INP v |}.
Definition set_TTFB (r : VitalRecord) (v : WebVitals) : WebVitals :=
  {| LCP := LCP v; FID := FID v; CLS := CLS v; TTFB := Some r; INP := INP v |}.
Definition set_INP (r : VitalRecord) (v : WebVitals) : WebVitals :=
  {| LCP := LCP v; FID := FID v; CLS := CLS v; TTFB := TTFB v; INP := Some r |}.

Definition with_model (f : UnifiedDataModel -> UnifiedDataModel) (s : Sdk) : Sdk :=
  {| apiKey := apiKey s; endpoint := endpoint s; sessionId := sessionId s;
     sessionStartTime := sessionStartTime s; buffer := buffer s;
     unifiedDataModel := f (unifiedDataModel s); batchConfig := batchConfig s;
     collectionState := collectionState s |}.

Definition with_buffer (f : Buffer -> Buffer) (s : Sdk) : Sdk :=
  {| apiKey := apiKey s; endpoint := endpoint s; sessionId := sessionId s;
     sessionStartTime := sessionStartTime s; buffer := f (buffer s);
     unifiedDataModel := unifiedDataModel s; batchConfig := batchConfig s;
     collectionState := collectionState s |}.

Definition with_state (f : CollectionState -> CollectionState) (s : Sdk) : Sdk :=
  {| apiKey := apiKey s; endpoint := endpoint s; sessionId := sessionId s;
     sessionStartTime := sessionStartTime s; buffer := buffer s;
     unifiedDataModel := unifiedDataModel s; batchConfig := batchConfig s;
     collectionState := f (collectionState s) |}.

Definition set_events (l : list Event) (b : Buffer) : Buffer :=
  {| events := l; buf_resources := buf_resources b; webVitals := webVitals b;
     ajaxCalls := ajaxCalls b; preSessionAjaxCalls := preSessionAjaxCalls b |}.
Definition set_buf_resources (l : list Resource) (b : Buffer) : Buffer :=
  {| events := events b; buf_resources := l; webVitals := webVitals b;
     ajaxCalls := ajaxCalls b; preSessionAjaxCalls := preSessionAjaxCalls b |}.
Definition set_webVitals (l : list Event) (b : Buffer) : Buffer :=
  {| events := events b; buf_resources := buf_resources b; webVitals := l;
     ajaxCalls := ajaxCalls b; preSessionAjaxCalls := preSessionAjaxCalls b |}.
Definition set_ajaxCalls (l : list AjaxCall) (b : Buffer) : Buffer :=
  {| events := events b; buf_resources := buf_resources b; webVitals := webVitals b;
     ajaxCalls := l; preSessionAjaxCalls := preSessionAjaxCalls b |}.
Definition set_preSessionAjaxCalls (l : option (list AjaxCall)) (b : Buffer) : Buffer :=
  {| events := events b; buf_resources := buf_resources b; webVitals := webVitals b;
     ajaxCalls := ajaxCalls b; preSessionAjaxCalls := l |}.

Definition set_resources (l : list Resource) (m : UnifiedDataModel) : UnifiedDataModel :=
  {| session_id := session_id m; model_timestamp := model_timestamp m;
     web_vitals := web_vitals m; resources := l;
     ajax_requests := ajax_requests m; timings := timings m; meta := meta m |}.
Definition set_ajax_requests (l : list AjaxCall) (m : UnifiedDataModel) : UnifiedDataModel :=
  {| session_id := session_id m; model_timestamp := model_timestamp m;
     web_vitals := web_vitals m; resources := resources m;
     ajax_requests := l; timings := timings m; meta := meta m |}.
Definition set_session (sid : option string) (ts : option Z) (m : UnifiedDataModel) : UnifiedDataModel :=
  {| session_id := sid; model_timestamp := ts;
     web_vitals := web_vitals m; resources := resources m;
     ajax_requests := ajax_requests m; timings := timings m; meta := meta m |}.
Definition set_meta (x : Meta) (m : UnifiedDataModel) : UnifiedDataModel :=
  {| session_id := session_id m; model_timestamp := model_timestamp m;
     web_vitals := web_vitals m; resources := resources m;
     ajax_requests := ajax_requests m; timings := timings m; meta := Some x |}.
Definition set_timings (n : NavigationEntry) (m : UnifiedDataModel) : UnifiedDataModel :=
  {| session_id := session_id m; model_timestamp := model_timestamp m;
     web_vitals := web_vitals m; resources := resources m;
     ajax_requests := ajax_requests m; timings := Some n; meta := meta m |}.

Definition set_unloadSent (b : bool) (c : CollectionState) : CollectionState :=
  {| resourcesCollected := resourcesCollected c; lastAjaxCallFlush := lastAjaxCallFlush c;
     isBatchProcessingStarted := isBatchProcessingStarted c; unloadSent := b;
     visibilityChangeCount := visibilityChangeCount c; pageLoaded := pageLoaded c;
     resourceHashMap := resourceHashMap c |}.
Definition set_visibilityChangeCount (n : Z) (c : CollectionState) : CollectionState :=
  {| resourcesCollected := resourcesCollected c; lastAjaxCallFlush := lastAjaxCallFlush c;
     isBatchProcessingStarted := isBatchProcessingStarted c; unloadSent := unloadSent c;
     visibilityChangeCount := n; pageLoaded := pageLoaded c;
     resourceHashMap := resourceHashMap c |}.
Definition set_resourcesCollected (b : bool) (c : CollectionState) : CollectionState :=
  {| resourcesCollected := b; lastAjaxCallFlush := lastAjaxCallFlush c;
     isBatchProcessingStarted := isBatchProcessingStarted c; unloadSent := unloadSent c;
     visibilityChangeCount := visibilityChangeCount c; pageLoaded := pageLoaded c;
     resourceHashMap := resourceHashMap c |}.
Definition set_lastAjaxCallFlush (t : Z) (c : CollectionState) : CollectionState :=
  {| resourcesCollected := resourcesCollected c; lastAjaxCallFlush := Some t;
     isBatchProcessingStarted := isBatchProcessingStarted c; unloadSent := unloadSent c;
     visibilityChangeCount := visibilityChangeCount c; pageLoaded := pageLoaded c;
     resourceHashMap := resourceHashMap c |}.
Definition set_pageLoaded (b : bool) (c : CollectionState) : CollectionState :=
  {| resourcesCollected := resourcesCollected c; lastAjaxCallFlush := lastAjaxCallFlush c;
     isBatchProcessingStarted := isBatchProcessingStarted c; unloadSent := unloadSent c;
     visibilityChangeCount := visibilityChangeCount c; pageLoaded := b;
     resourceHashMap := resourceHashMap c |}.
Definition set_resourceHashMap (m : gmap string Z) (c : CollectionState) : CollectionState :=
  {| resourcesCollected := resourcesCollected c; lastAjaxCallFlush := lastAjaxCallFlush c;
     isBatchProcessingStarted := isBatchProcessingStarted c; unloadSent := unloadSent c;
     visibilityChangeCount := visibilityChangeCount c; pageLoaded := pageLoaded c;
     resourceHashMap := Some m |}.

(** ** The agent's methods *)

(** One reading of the host's ambient state, taken when a callback runs:
    [Date.now()], [document.visibilityState], whether [document.readyState]
    is ['complete'], and [performance.getEntriesByType('resource')].
    [performance.now()] is read off the same clock, as [now] minus the
    page's time origin. *)
Record Reading := {
  now : Z;
  visibilityState : Visibility;
  readyState_complete : bool;
  resource_entries : list ResourceEntry
}.

Definition _detectBrowser (ua : string) : string :=
  if Js.indexOf_found "Chrome" ua then "Chrome"
  else if Js.indexOf_found "Safari" ua then "Safari"
  else if Js.indexOf_found "Firefox" ua then "Firefox"
  else if Js.indexOf_found "MSIE" ua || Js.indexOf_found "Trident/" ua then "IE"
  else if Js.indexOf_found "Edge" ua then "Edge"
  else if Js.indexOf_found "Opera" ua || Js.indexOf_found "OPR/" ua then "Opera"
  else "Unknown".

Definition _detectOS (ua : string) : string :=
  if Js.indexOf_found "Win" ua then "Windows"
  else if Js.indexOf_found "Mac" ua then "Mac OS"
  else if Js.indexOf_found "Linux" ua then "Linux"
  else if Js.indexOf_found "Android" ua then "Android"
  else if Js.indexOf_found "iOS" ua || Js.indexOf_found "iPhone" ua
          || Js.indexOf_found "iPad" ua then "iOS"
  else "Unknown".

Definition _updateMetadata (page : Page) (rd : Reading) (s : Sdk) : Sdk :=
  with_model (set_meta
    {| meta_url := href page; meta_path := pathname page; meta_title := title page;
       meta_user_agent := userAgent page;
       page_visibility := visibilityState rd;
       visibility_changes := visibilityChangeCount (collectionState s);
       meta_timestamp := now rd;
       browser := _detectBrowser (userAgent page);
       os := _detectOS (userAgent page) |}) s.

(** The body of the [forEach] in [_updateWebVitalsInUnifiedModel]: the merge
    rule of each vital, applied to one buffered event. *)
Definition merge_vital (m : WebVitals) (vital : Event) : WebVitals :=
  match event_data vital with
  | DataOther _ => m
  | DataVital d =>
      if negb (Js.truthy (vd_name d)) then m
      else
        let name := vd_name d in
        let val := vd_value d in
        let ts := ev_timestamp vital in
        if String.eqb name "LCP" then
          match LCP m with
          | Some r =>
              if val >? value r then
                set_LCP {| value := val; timestamp := ts;
                           detail := DetailLCP (default ElementUnknown (vd_element d)) |} m
              else m
          | None =>
              set_LCP {| value := val; timestamp := ts;
                         detail := DetailLCP (default ElementUnknown (vd_element d)) |} m
          end
        else if String.eqb name "FID" then
          match FID m with
          | Some _ => m
          | None =>
              set_FID {| value := val; timestamp := ts;
                         detail := DetailFID (vd_inputType d) None |} m
          end
        else if String.eqb name "CLS" then
          match CLS m with
          | Some r =>
              if val >? value r then
                set_CLS {| value := val; timestamp := ts;
                           detail := DetailCLS (vd_entries d) None |} m
              else m
          | None =>
              set_CLS {| value := val; timestamp := ts;
                         detail := DetailCLS (vd_entries d) None |} m
          end
        else if String.eqb name "INP" then
          match INP m with
          | Some r =>
              if val >? value r then
                set_INP {| value := val; timestamp := ts; detail := DetailINP None |} m
              else m
          | None =>
              set_INP {| value := val; timestamp := ts; detail := DetailINP None |} m
          end
        else m
  end.

Definition _updateWebVitalsInUnifiedModel (s : Sdk) : Sdk :=
  let s1 := with_model (with_web_vitals
              (fun v => fold_left merge_vital (webVitals (buffer s)) v)) s in
  with_buffer (set_webVitals []) s1.

Definition _consolidateBufferedData (page : Page) (rd : Reading) (s : Sdk) : Sdk :=
  let s1 :=
    if (0 <? Z.of_nat (length (buf_resources (buffer s)))) then
      with_buffer (set_buf_resources [])
        (with_model (set_resources
           (resources (unifiedDataModel s) ++ buf_resources (buffer s))) s)
    else s in
  let s2 :=
    if (0 <? Z.of_nat (length (ajaxCalls (buffer s1)))) then
      with_buffer (set_ajaxCalls [])
        (with_model (set_ajax_requests
           (ajax_requests (unifiedDataModel s1) ++ ajaxCalls (buffer s1))) s1)
    else s1 in
  let s3 := with_buffer (set_events []) s2 in
  let s4 := with_model (set_session (sessionId s3) (Some (now rd))) s3 in
  _updateMetadata page rd s4.

Definition _resetVolatileDataInUnifiedModel (s : Sdk) : Sdk :=
  with_model (fun m => set_ajax_requests [] (set_resources [] m)) s.

(** [_sendToServer] only wraps the transport; here a call to it is the
    transmission it hands over.  The worlds of this model are those whose
    transport returns; what [sendToServer] does with a host primitive that
    throws is told in [Transport]. *)
Definition _sendUnifiedData (useBeacon : bool) (s : Sdk) : Sdk * list Transmission :=
  if negb (Js.truthy_opt (session_id (unifiedDataModel s))) then (s, [])
  else
    let dataToSend := unifiedDataModel s in
    (_resetVolatileDataInUnifiedModel s,
     [{| tx_path := "/api/collect"; tx_data := UnifiedData dataToSend;
         tx_sync := useBeacon |}]).

Definition _prepareFinalDataAndSend (useBeacon : bool) (page : Page) (rd : Reading)
    (s : Sdk) : Sdk * list Transmission :=
  let s1 := _consolidateBufferedData page rd s in
  let s2 := _updateWebVitalsInUnifiedModel s1 in
  _sendUnifiedData useBeacon s2.

(** [r && r.value] as a condition. *)
Definition has_value (r : option VitalRecord) : bool :=
  match r with
  | Some x => negb (value x =? 0)
  | None => false
  end.

Definition _hasSignificantData (s : Sdk) : bool :=
  let m := unifiedDataModel s in
  (0 <? Z.of_nat (length (resources m)))
  || (0 <? Z.of_nat (length (ajax_requests m)))
  || (0 <? Z.of_nat (length (webVitals (buffer s))))
  || has_value (LCP (web_vitals m))
  || has_value (FID (web_vitals m))
  || has_value (CLS (web_vitals m)).

Definition image_exts : list string := ["png"; "jpg"; "jpeg"; "gif"; "webp"; "svg"; "ico"].
Definition font_exts : list string := ["woff2"; "woff"; "ttf"; "otf"; "eot"].

Definition _getResourceType (resource : ResourceEntry) : string :=
  let initiatorType := re_initiatorType resource in
  let url := re_name resource in
  if String.eqb initiatorType "img" || String.eqb initiatorType "image" then "image"
  else if String.eqb initiatorType "script" then "script"
  else if String.eqb initiatorType "link" && Js.truthy (re_nextHopProtocol resource)
       then "stylesheet"
  else if String.eqb initiatorType "css" then "stylesheet"
  else if String.eqb initiatorType "fetch" || String.eqb initiatorType "xmlhttprequest"
       then "xhr"
  else if Js.test_ext image_exts url then "image"
  else if Js.test_ext ["js"] url then "script"
  else if Js.test_ext ["css"] url then "stylesheet"
  else if Js.test_ext font_exts url then "font"
  else if Js.test_ext ["mp4"; "webm"; "ogv"] url then "video"
  else if Js.test_ext ["mp3"; "ogg"; "wav"] url then "audio"
  else "other".

Definition _isResourceProcessed (url : string) (s : Sdk) : bool :=
  existsb (fun resource => String.eqb (res_name resource) url)
          (resources (unifiedDataModel s)).

(** The [processedResource] literal of [_collectResources].  On integer
    times [Math.round] is the identity, and [x || 0] is [x] on a number. *)
Definition processedResource (resource : ResourceEntry) : Resource :=
  {| res_name := re_name resource;
     res_type := _getResourceType resource;
     res_startTime := re_startTime resource;
     res_duration := re_duration resource;
     res_size := re_transferSize resource;
     res_protocol := re_nextHopProtocol resource;
     res_encodedSize := re_encodedBodySize resource;
     res_decodedSize := re_decodedBodySize resource;
     res_initiatorType := re_initiatorType resource |}.

(** The body of the [forEach] in [_collectResources]. *)
Definition collect_one (s : Sdk) (resource : ResourceEntry) : Sdk :=
  if _isResourceProcessed (re_name resource) s then s
  else
    with_model (set_resources
      (resources (unifiedDataModel s) ++ [processedResource resource])) s.

Definition _collectResources (rd : Reading) (s : Sdk) : Sdk :=
  let s1 := fold_left collect_one (resource_entries rd) s in
  with_state (set_resourcesCollected true) s1.

Definition captureResourceData (rd : Reading) (s : Sdk) : bool * Sdk :=
  (true, _collectResources rd s).

Definition sendEvent (eventType : string) (eventData : EventData) (immediate : bool)
    (rd : Reading) (s : Sdk) : bool * Sdk :=
  match sessionId s with
  | None => (false, s)
  | Some sid =>
      if negb (Js.truthy sid) then (false, s)
      else
        let event := {| ev_session_id := sid; event_type := eventType;
                        event_data := eventData; ev_timestamp := now rd |} in
        if String.eqb eventType "core_web_vital" then
          let s1 := with_buffer (fun b => set_webVitals (webVitals b ++ [event]) b) s in
          (true, if immediate then _updateWebVitalsInUnifiedModel s1 else s1)
        else
          (true, with_buffer (fun b => set_events (events b ++ [event]) b) s)
  end.

Definition collectPerformanceMetrics (rd : Reading) (s : Sdk) : bool * Sdk :=
  (true, _updateWebVitalsInUnifiedModel (_collectResources rd s)).

Definition sendCollectedData (useBeacon : bool) (page : Page) (rd : Reading) (s : Sdk)
    : bool * (Sdk * list Transmission) :=
  (true, _prepareFinalDataAndSend useBeacon page rd s).

(** *** Network-call buffer *)

(** [flushManager.flushAjaxCalls], reached through [_flushAjaxCalls]. *)
Definition flushAjaxCalls (useBeacon : bool) (rd : Reading) (s : Sdk)
    : Sdk * list Transmission :=
  match ajaxCalls (buffer s) with
  | [] => (s, [])
  | _ =>
      let cap := maxAjaxCallsPerBatch (batchConfig s) in
      let ajaxCallsToSend := Js.slice_to cap (ajaxCalls (buffer s)) in
      let s1 := with_buffer (set_ajaxCalls (Js.slice_from cap (ajaxCalls (buffer s)))) s in
      let batchData := AjaxBatch (sessionId s) ajaxCallsToSend (now rd)
                                 (Z.of_nat (length ajaxCallsToSend)) in
      (with_state (set_lastAjaxCallFlush (now rd)) s1,
       [{| tx_path := "/api/ajax-calls"; tx_data := batchData; tx_sync := useBeacon |}])
  end.

(** Without a session the record goes to [buffer.preSessionAjaxCalls]; the
    constructor's buffer has no such key, and until [setupAjaxMonitoring] has
    created it the [push] throws. *)
Definition storeAjaxCallData (rd : Reading) (ajaxCallData : AjaxCall) (s : Sdk)
    : Completion (Sdk * list Transmission) :=
  if Js.truthy_opt (sessionId s) then
    let s1 := with_buffer (fun b => set_ajaxCalls (ajaxCalls b ++ [ajaxCallData]) b) s in
    if maxAjaxCallsPerBatch (batchConfig s1) <=? Z.of_nat (length (ajaxCalls (buffer s1)))
    then Normal (flushAjaxCalls false rd s1)
    else Normal (s1, [])
  else
    match preSessionAjaxCalls (buffer s) with
    | Some pre =>
        Normal (with_buffer (set_preSessionAjaxCalls (Some (pre ++ [ajaxCallData])%list)) s, [])
    | None => Throw (TypeError "Cannot read properties of undefined (reading 'push')")
    end.

(** [if (!pre || !pre.length) return]: an absent and an empty holding area
    are both left as they are. *)
Definition mergePreSessionAjaxCalls (s : Sdk) : Sdk :=
  match preSessionAjaxCalls (buffer s) with
  | None | Some [] => s
  | Some pre =>
      with_buffer (fun b => set_preSessionAjaxCalls (Some [])
                              (set_ajaxCalls (ajaxCalls b ++ pre) b)) s
  end.

(** *** Buffer management: [createBufferManagement] *)

(** [if (buf.length > maxSize) buf = buf.slice(-maxSize)] *)
Definition trim {A} (maxSize : Z) (l : list A) : list A :=
  if maxSize <? Z.of_nat (length l) then Js.slice_from (- maxSize) l else l.

(** With [maxBufferSize] undefined every comparison [length > undefined] is
    false and nothing is trimmed. *)
Definition trimBuffers (s : Sdk) : Sdk :=
  match maxBufferSize (batchConfig s) with
  | None => s
  | Some maxSize =>
      with_buffer (fun b =>
        set_webVitals (trim maxSize (webVitals b))
          (set_buf_resources (trim maxSize (buf_resources b))
             (set_events (trim maxSize (events b)) b))) s
  end.

Definition hashResource (resource : Resource) : string :=
  res_type resource +:+ "|" +:+ Js.before_query (res_name resource) +:+ "|"
  +:+ (if res_duration resource <? 50 then "fast" else "slow").

(** [m[hash]] as a condition: present and not zero. *)
Definition seen (m : gmap string Z) (hash : string) : bool :=
  match m !! hash with
  | Some t => negb (t =? 0)
  | None => false
  end.

Definition shouldCollectResource (rd : Reading) (resource : Resource) (s : Sdk)
    : Completion (bool * Sdk) :=
  if default false (resourceDedupingEnabled (batchConfig s)) then
    let hash := hashResource resource in
    match resourceHashMap (collectionState s) with
    | None => Throw (TypeError "Cannot read properties of undefined")
    | Some m =>
        if seen m hash then Normal (false, s)
        else Normal (true, with_state (set_resourceHashMap (<[hash := now rd]> m)) s)
    end
  else Normal (true, s).

(** ** Signal observers: [setupLCP], [setupFID], [setupCLS], [setupINP] *)

Definition performance_now (page : Page) (rd : Reading) : Z := now rd - timeOrigin page.

Record LcpEntry := {
  lcp_startTime : Z;
  lcp_size : Z;
  lcp_element : option DomElement
}.

(** A [PerformanceEventTiming] entry ([first-input] and [event]). *)
Record EventTiming := {
  et_name : string;
  et_target : option DomElement;
  et_startTime : Z;
  et_processingStart : Z;
  et_processingEnd : Z
}.

(** A [layout-shift] entry.  Its [value] is a fractional score, a double
    like every number of the page; the type of scores is left open here, and
    so is their addition in the accumulator of [setupCLS] below. *)
Record ShiftEntry (Num : Type) := {
  shift_value : Num;
  hadRecentInput : bool;
  shift_startTime : Z
}.
Arguments shift_value {Num} _.
Arguments hadRecentInput {Num} _.
Arguments shift_startTime {Num} _.

Definition vital_data (name : string) (val : Z) : VitalData :=
  {| vd_name := name; vd_value := val; vd_element := None; vd_inputType := None;
     vd_details := None; vd_entries := None |}.

(** The callback of the LCP observer.  [lastLCPValue] is the variable of
    the enclosing [setupLCP]; the result carries its new value, the agent
    and whether the one-second re-check was scheduled. *)
Definition lcp_callback (page : Page) (rd : Reading) (entries : list LcpEntry)
    (lastLCPValue : Z) (s : Sdk) : Completion (Z * Sdk * bool) :=
  match last entries with
  | None => Throw (TypeError "Cannot read properties of undefined")
  | Some lastEntry =>
      if lcp_startTime lastEntry >? lastLCPValue then
        let elementInfo :=
          match lcp_element lastEntry with
          | Some e => ElementOf (tagName e) (or_null (elem_id e)) (or_null (className e))
                                (lcp_size lastEntry) (boundingRect e)
          | None => ElementUnknown
          end in
        let s1 := snd (sendEvent "core_web_vital"
                         (DataVital {| vd_name := "LCP"; vd_value := lcp_startTime lastEntry;
                                       vd_element := Some elementInfo; vd_inputType := None;
                                       vd_details := None; vd_entries := None |})
                         false rd s) in
        let s2 := with_model (with_web_vitals (set_LCP
                    {| value := lcp_startTime lastEntry;
                       timestamp := timeOrigin page + lcp_startTime lastEntry;
                       detail := DetailLCP elementInfo |})) s1 in
        Normal (lcp_startTime lastEntry, s2, Z.of_nat (length entries) <=? 1)
      else Normal (lastLCPValue, s, false)
  end.

(** The callback of the first-input observer. *)
Definition fid_callback (page : Page) (rd : Reading) (entries : list EventTiming)
    (s : Sdk) : Completion Sdk :=
  match head entries with
  | None => Throw (TypeError "Cannot read properties of undefined")
  | Some firstInput =>
      let inputDetails :=
        {| input_type := et_name firstInput;
           targetElement :=
             match et_target firstInput with
             | Some t => Some (tagName t, or_null (elem_id t), or_null (className t))
             | None => None
             end;
           timing := (et_processingStart firstInput, et_processingEnd firstInput,
                      et_startTime firstInput) |} in
      let fidValue := et_processingStart firstInput - et_startTime firstInput in
      let s1 := snd (sendEvent "core_web_vital"
                       (DataVital {| vd_name := "FID"; vd_value := fidValue;
                                     vd_element := None;
                                     vd_inputType := Some (et_name firstInput);
                                     vd_details := Some inputDetails; vd_entries := None |})
                       true rd s) in
      Normal (with_model (with_web_vitals (set_FID
                {| value := fidValue;
                   timestamp := timeOrigin page + et_startTime firstInput;
                   detail := DetailFID (Some (et_name firstInput)) (Some inputDetails) |})) s1)
  end.

(** The variables of one [setupCLS] call. *)
Record ClsState (Num : Type) := {
  clsValue : Num;
  clsEntries : list (ShiftEntry Num);
  sessionEntries : list (Num * Z);
  lastCLSReport : Z;
  cls_sessionStartTime : Z;
  sessionClsValue : Num
}.
Arguments clsValue {Num} _.
Arguments clsEntries {Num} _.
Arguments sessionEntries {Num} _.
Arguments lastCLSReport {Num} _.
Arguments cls_sessionStartTime {Num} _.
Arguments sessionClsValue {Num} _.

(** The body of [entries.forEach]: [clsValue += entry.value] and
    [sessionClsValue += entry.value], with [add] the addition of the
    scores.  Nothing is assumed of [add]: the additions are made one entry
    at a time, in the order of the entries, as the source makes them. *)
Definition cls_add {Num} (add : Num -> Num -> Num) (c : ClsState Num)
    (entry : ShiftEntry Num) : ClsState Num :=
  if negb (hadRecentInput entry) then
    {| clsValue := add (clsValue c) (shift_value entry);
       clsEntries := clsEntries c ++ [entry];
       sessionEntries := sessionEntries c ++ [(shift_value entry, shift_startTime entry)];
       lastCLSReport := lastCLSReport c;
       cls_sessionStartTime := cls_sessionStartTime c;
       sessionClsValue := add (sessionClsValue c) (shift_value entry) |}
  else c.

Definition cls_accumulate {Num} (add : Num -> Num -> Num)
    (entries : list (ShiftEntry Num)) (c : ClsState Num) : ClsState Num :=
  fold_left (cls_add add) entries c.

(** The callback of the layout-shift observer; the boolean tells whether
    the one-second re-check was scheduled.  In the agent's records a score
    is carried as a [Z], like the other numbers of the model. *)
Definition cls_callback (rd : Reading) (entries : list (ShiftEntry Z)) (c : ClsState Z)
    (s : Sdk) : ClsState Z * Sdk * bool :=
  let c1 := cls_accumulate Z.add entries c in
  let n := Z.of_nat (length (clsEntries c1)) in
  if ((now rd - lastCLSReport c1 >? 5000) || (n mod 10 =? 0)) && (0 <? n) then
    let c2 := {| clsValue := clsValue c1; clsEntries := clsEntries c1;
                 sessionEntries := sessionEntries c1; lastCLSReport := now rd;
                 cls_sessionStartTime := cls_sessionStartTime c1;
                 sessionClsValue := sessionClsValue c1 |} in
    let s1 := snd (sendEvent "core_web_vital"
                     (DataVital {| vd_name := "CLS"; vd_value := clsValue c1;
                                   vd_element := None; vd_inputType := None;
                                   vd_details := None; vd_entries := Some n |})
                     false rd s) in
    let s2 := with_model (with_web_vitals (set_CLS
                {| value := clsValue c1; timestamp := now rd;
                   detail := DetailCLS (Some n)
                               (Some (sessionClsValue c1,
                                      Z.of_nat (length (sessionEntries c1)))) |})) s1 in
    (c2, s2, n mod 30 =? 0)
  else (c1, s, false).

(** The [visibilitychange] listener of [setupCLS]. *)
Definition cls_visibilitychange (page : Page) (rd : Reading) (c : ClsState Z) (s : Sdk)
    : ClsState Z * Sdk :=
  match visibilityState rd with
  | Hidden =>
      if 0 <? sessionClsValue c then
        (c, with_model (with_web_vitals (set_CLS
              {| value := sessionClsValue c; timestamp := now rd;
                 detail := DetailCLS (Some (Z.of_nat (length (sessionEntries c)))) None |})) s)
      else (c, s)
  | Visible =>
      if performance_now page rd - cls_sessionStartTime c >? 1000 then
        ({| clsValue := clsValue c; clsEntries := clsEntries c; sessionEntries := [];
            lastCLSReport := lastCLSReport c;
            cls_sessionStartTime := performance_now page rd;
            sessionClsValue := 0 |}, s)
      else (c, s)
  end.

Definition interaction_names : list string :=
  ["pointerdown"; "keydown"; "click"; "mousedown"; "touchstart"].

(** The body of the [forEach] of the event-timing observer; [maxDelay] is
    the variable of the enclosing [setupINP]. *)
Definition inp_one (page : Page) (rd : Reading) (st : Z * Sdk) (entry : EventTiming)
    : Z * Sdk :=
  let '(maxDelay, s) := st in
  if negb (existsb (String.eqb (et_name entry)) interaction_names) then st
  else
    let duration := et_processingEnd entry - et_startTime entry in
    if duration >? maxDelay then
      let s1 := snd (sendEvent "core_web_vital"
                       (DataVital (vital_data "INP" duration)) false rd s) in
      (duration,
       with_model (with_web_vitals (set_INP
         {| value := duration; timestamp := timeOrigin page + et_startTime entry;
            detail := DetailINP (Some (et_name entry)) |})) s1)
    else st.

Definition inp_callback (page : Page) (rd : Reading) (entries : list EventTiming)
    (maxDelay : Z) (s : Sdk) : Z * Sdk :=
  fold_left (inp_one page rd) entries (maxDelay, s).

(** ** The agent in its host

    The host keeps what the agent registers with it: event listeners,
    performance observers, interval timers, pending one-shot callbacks and
    the patches of the network primitives.  Each registration is a tag
    naming the closure of the source that was registered; a closure that
    owns variables refers to its cell in [closures]. *)

Record VitalsClosure := {
  lastLCPValue : Z;
  cls : ClsState Z;
  maxDelay : Z
}.

Inductive Listener :=
| VitalsVisibilityChange          (* setupPageVisibilityHandler *)
| VitalsBeforeUnload              (* setupPageVisibilityHandler *)
| ClsVisibilityChange (i : nat)   (* setupCLS *)
| EventsLoad                      (* setupEventListeners *)
| EventsClick                     (* setupEventListeners *)
| EventsVisibilityChange          (* setupEventListeners *)
| BatchVisibilityChange           (* startBatchProcessing *)
| BatchBeforeUnload               (* startBatchProcessing *)
| LifecycleVisibilityChange       (* _setupPageLifecycleEvents *)
| LifecycleBeforeUnload.          (* _setupPageLifecycleEvents *)

Inductive Observer :=
| ObsLCP (i : nat)
| ObsFID
| ObsCLS (i : nat)
| ObsINP (i : nat)
| ObsLongTask.

Inductive Interval :=
| CollectResources                (* _startBatchedCollection, 3000 ms *)
| PeriodicFlush (ms : Z)          (* _setupPeriodicFlush *)
| BatchFlush (ms : Z)             (* startBatchProcessing *)
| TrimBuffers.                    (* setupBufferManagement, 30000 ms *)

Inductive Pending :=
| VitalsRecheck                   (* setupLCP / setupCLS, 1000 ms *)
| LoadCapture                     (* setupEventListeners, 1000 ms *)
| InteractionCapture              (* click listener, 2000 ms *)
| IdleCapture                     (* requestIdleCallback of setupEventListeners *)
| IdleFlush.                      (* requestIdleCallback chain of startBatchProcessing *)

Inductive Interceptor := XhrPatch | FetchPatch.

(** Host capabilities the set-up code tests for. *)
Record Capabilities := {
  has_performance_mark : bool;
  has_PerformanceObserver : bool;
  supports_event_timing : bool;
  supports_longtask : bool;
  has_fetch : bool;
  has_requestIdleCallback : bool;
  navigation_entry : option NavigationEntry
}.

Record World := {
  sdk : Sdk;
  page : Page;
  caps : Capabilities;
  closures : list VitalsClosure;
  listeners : list Listener;
  observers : list Observer;
  intervals : list Interval;
  pendings : list Pending;
  interceptors : list Interceptor;
  registration_pending : bool;
  outbox : list Transmission
}.

Definition with_sdk (f : Sdk -> Sdk) (w : World) : World :=
  {| sdk := f (sdk w); page := page w; caps := caps w; closures := closures w;
     listeners := listeners w; observers := observers w; intervals := intervals w;
     pendings := pendings w; interceptors := interceptors w;
     registration_pending := registration_pending w; outbox := outbox w |}.

(** Install the agent a method returned and post what it transmitted. *)
Definition post (r : Sdk * list Transmission) (w : World) : World :=
  {| sdk := fst r; page := page w; caps := caps w; closures := closures w;
     listeners := listeners w; observers := observers w; intervals := intervals w;
     pendings := pendings w; interceptors := interceptors w;
     registration_pending := registration_pending w; outbox := outbox w ++ snd r |}.

Definition set_closures (cs : list VitalsClosure) (w : World) : World :=
  {| sdk := sdk w; page := page w; caps := caps w; closures := cs;
     listeners := listeners w; observers := observers w; intervals := intervals w;
     pendings := pendings w; interceptors := interceptors w;
     registration_pending := registration_pending w; outbox := outbox w |}.

Definition add_listeners (ls : list Listener) (w : World) : World :=
  {| sdk := sdk w; page := page w; caps := caps w; closures := closures w;
     listeners := listeners w ++ ls; observers := observers w; intervals := intervals w;
     pendings := pendings w; interceptors := interceptors w;
     registration_pending := registration_pending w; outbox := outbox w |}.

Definition add_observers (os : list Observer) (w : World) : World :=
  {| sdk := sdk w; page := page w; caps := caps w; closures := closures w;
     listeners := listeners w; observers := observers w ++ os; intervals := intervals w;
     pendings := pendings w; interceptors := interceptors w;
     registration_pending := registration_pending w; outbox := outbox w |}.

Definition add_intervals (ts : list Interval) (w : World) : World :=
  {| sdk := sdk w; page := page w; caps := caps w; closures := closures w;
     listeners := listeners w; observers := observers w; intervals := intervals w ++ ts;
     pendings := pendings w; interceptors := interceptors w;
     registration_pending := registration_pending w; outbox := outbox w |}.

Definition set_pendings (ps : list Pending) (w : World) : World :=
  {| sdk := sdk w; page := page w; caps := caps w; closures := closures w;
     listeners := listeners w; observers := observers w; intervals := intervals w;
     pendings := ps; interceptors := interceptors w;
     registration_pending := registration_pending w; outbox := outbox w |}.

Definition add_pending (p : Pending) (w : World) : World :=
  set_pendings (pendings w ++ [p]) w.

Definition add_interceptors (xs : list Interceptor) (w : World) : World :=
  {| sdk := sdk w; page := page w; caps := caps w; closures := closures w;
     listeners := listeners w; observers := observers w; intervals := intervals w;
     pendings := pendings w; interceptors := interceptors w ++ xs;
     registration_pending := registration_pending w; outbox := outbox w |}.

Definition set_registration_pending (b : bool) (w : World) : World :=
  {| sdk := sdk w; page := page w; caps := caps w; closures := closures w;
     listeners := listeners w; observers := observers w; intervals := intervals w;
     pendings := pendings w; interceptors := interceptors w;
     registration_pending := b; outbox := outbox w |}.

(** *** Set-up code *)

(** [setupCoreWebVitals]: a fresh cell for the variables of [setupLCP],
    [setupCLS] and [setupINP], then the registrations in source order. *)
Definition setupCoreWebVitals (rd : Reading) (w : World) : World :=
  if has_PerformanceObserver (caps w) then
    let i := length (closures w) in
    let cell :=
      {| lastLCPValue := 0;
         cls := {| clsValue := 0; clsEntries := []; sessionEntries := [];
                   lastCLSReport := 0;
                   cls_sessionStartTime := performance_now (page w) rd;
                   sessionClsValue := 0 |};
         maxDelay := 0 |} in
    let w1 := set_closures (closures w ++ [cell]) w in
    let w2 := add_observers [ObsLCP i; ObsFID] w1 in                      (* setupLCP, setupFID *)
    let w3 := add_observers [ObsCLS i] (add_listeners [ClsVisibilityChange i] w2) in
    let w4 := if supports_event_timing (caps w) then add_observers [ObsINP i] w3 else w3 in
    let w5 := add_listeners [VitalsVisibilityChange; VitalsBeforeUnload] w4 in
    if supports_longtask (caps w) then add_observers [ObsLongTask] w5 else w5
  else w.

Definition _captureNavigationTiming (rd : Reading) (w : World) : World :=
  match navigation_entry (caps w) with
  | Some navEntry =>
      let s1 := with_model (set_timings navEntry) (sdk w) in
      let s2 := with_model (with_web_vitals (set_TTFB
                  {| value := responseStart navEntry;
                     timestamp := timeOrigin (page w) + responseStart navEntry;
                     detail := DetailTTFB |})) s1 in
      let s3 := snd (sendEvent "core_web_vital"
                       (DataVital (vital_data "TTFB" (responseStart navEntry)))
                       true rd s2) in
      with_sdk (fun _ => s3) w
  | None => w
  end.

Definition _initPerformanceMetrics (rd : Reading) (w : World) : World :=
  if has_performance_mark (caps w) then
    _captureNavigationTiming rd (setupCoreWebVitals rd w)
  else w.

(** [if (!buffer.preSessionAjaxCalls) buffer.preSessionAjaxCalls = []]: an
    array, empty or not, is truthy and is kept. *)
Definition init_preSessionAjaxCalls (s : Sdk) : Sdk :=
  match preSessionAjaxCalls (buffer s) with
  | None => with_buffer (set_preSessionAjaxCalls (Some [])) s
  | Some _ => s
  end.

(** [setupAjaxMonitoring]: the holding area is created, then both network
    primitives are patched; [fetch] only where the host has it. *)
Definition setupAjaxMonitoring (w : World) : World :=
  let w1 := add_interceptors [XhrPatch] (with_sdk init_preSessionAjaxCalls w) in
  if has_fetch (caps w) then add_interceptors [FetchPatch] w1 else w1.

Definition _setupPeriodicFlush (w : World) : World :=
  add_intervals [PeriodicFlush (flushInterval (batchConfig (sdk w)))] w.

Definition _setupPageLifecycleEvents (w : World) : World :=
  _setupPeriodicFlush (add_listeners [LifecycleVisibilityChange; LifecycleBeforeUnload] w).

Definition set_isBatchProcessingStarted (b : bool) (c : CollectionState) : CollectionState :=
  {| resourcesCollected := resourcesCollected c; lastAjaxCallFlush := lastAjaxCallFlush c;
     isBatchProcessingStarted := b; unloadSent := unloadSent c;
     visibilityChangeCount := visibilityChangeCount c; pageLoaded := pageLoaded c;
     resourceHashMap := resourceHashMap c |}.

Definition _setupBatchedCollection (w : World) : World :=
  if negb (isBatchProcessingStarted (collectionState (sdk w))) then
    let w1 := with_sdk (with_state (set_isBatchProcessingStarted true)) w in
    (* _startBatchedCollection *)
    _setupPeriodicFlush (add_intervals [CollectResources] w1)
  else w.

Definition set_sessionId (sid : string) (s : Sdk) : Sdk :=
  {| apiKey := apiKey s; endpoint := endpoint s; sessionId := Some sid;
     sessionStartTime := sessionStartTime s; buffer := buffer s;
     unifiedDataModel := unifiedDataModel s; batchConfig := batchConfig s;
     collectionState := collectionState s |}.

Definition set_sessionStartTime (t : Z) (s : Sdk) : Sdk :=
  {| apiKey := apiKey s; endpoint := endpoint s; sessionId := sessionId s;
     sessionStartTime := Some t; buffer := buffer s;
     unifiedDataModel := unifiedDataModel s; batchConfig := batchConfig s;
     collectionState := collectionState s |}.

(** [createSession] up to the point where the registration request is
    under way.  [stamp] is the base-36 clock text and [uuid] the random
    part of the identifier. *)
Definition createSession (rd : Reading) (stamp uuid : string) (w : World) : World :=
  let sid := stamp +:+ "-" +:+ uuid in
  let w1 := with_sdk (fun s => mergePreSessionAjaxCalls (set_sessionId sid s)) w in
  let w2 := post (sdk w1, [{| tx_path := "/api/sessions";
                              tx_data := SessionData sid (page w) (now rd);
                              tx_sync := false |}]) w1 in
  set_registration_pending true w2.

Definition setupEventListeners (rd : Reading) (w : World) : World :=
  if negb (Js.truthy_opt (sessionId (sdk w))) then w
  else
    let w1 :=
      if readyState_complete rd then
        if negb (pageLoaded (collectionState (sdk w))) then
          add_pending LoadCapture (with_sdk (with_state (set_pageLoaded true)) w)
        else w
      else add_listeners [EventsLoad] w in
    let w2 := add_listeners [EventsClick] w1 in
    let w3 := if has_requestIdleCallback (caps w) then add_pending IdleCapture w2 else w2 in
    add_listeners [EventsVisibilityChange] w3.

Definition _setupPerformanceObservers (rd : Reading) (w : World) : World :=
  let w1 := setupCoreWebVitals rd w in
  let w2 := setupAjaxMonitoring w1 in
  with_sdk (fun s => snd (captureResourceData rd s)) w2.

Definition startBatchProcessing (w : World) : World :=
  let cfg := batchConfig (sdk w) in
  let w1 := add_intervals [BatchFlush (Z.min (flushInterval cfg) 10000)] w in
  let w2 := if default false (visibilityFlushEnabled cfg)
            then add_listeners [BatchVisibilityChange] w1 else w1 in
  let w3 := add_listeners [BatchBeforeUnload] w2 in
  let w4 := if default false (flushAtIdle cfg) && has_requestIdleCallback (caps w)
            then add_pending IdleFlush w3 else w3 in
  add_intervals [TrimBuffers] w4.

(** The continuation of the registration request in [createSession];
    [success] is the value its promise resolved with. *)
Definition registration_settled (success : bool) (rd : Reading) (w : World) : World :=
  if success then
    let w1 := setupEventListeners rd w in
    let w2 := _setupPerformanceObservers rd w1 in
    let w3 := startBatchProcessing w2 in
    with_sdk (fun s =>
      let s1 := set_sessionStartTime (now rd) s in
      with_model (set_session (sessionId s1) (Some (now rd))) s1) w3
  else w.

Definition _init (rd : Reading) (stamp uuid : string) (w : World) : World :=
  if negb (Js.truthy_opt (apiKey (sdk w))) then w
  else
    let w1 := _initPerformanceMetrics rd w in
    let w2 := setupAjaxMonitoring w1 in
    let w3 := createSession rd stamp uuid w2 in
    _setupPageLifecycleEvents w3.

Record Options := {
  opt_apiKey : option string;
  opt_endpoint : option string;
  opt_flushInterval : option Z
}.

(** [x || d] on an optional number: absent and zero give the default. *)
Definition num_or (x : option Z) (d : Z) : Z :=
  match x with
  | Some n => if n =? 0 then d else n
  | None => d
  end.

(** The constructor [Optima(options)]. *)
Definition Optima (options : Options) (host_caps : Capabilities) (host_page : Page)
    (rd : Reading) (stamp uuid : string) : World :=
  let this :=
    {| apiKey := opt_apiKey options;
       endpoint := if Js.truthy_opt (opt_endpoint options)
                   then default "" (opt_endpoint options)
                   else "http://localhost:3000";
       sessionId := None;
       sessionStartTime := None;
       buffer := {| events := []; buf_resources := []; webVitals := [];
                    ajaxCalls := []; preSessionAjaxCalls := None |};
       unifiedDataModel :=
         {| session_id := None; model_timestamp := None;
            web_vitals := {| LCP := None; FID := None; CLS := None;
                             TTFB := None; INP := None |};
            resources := []; ajax_requests := []; timings := None; meta := None |};
       batchConfig :=
         {| maxEventsPerBatch := 50; maxResourcesPerBatch := 50;
            maxWebVitalsPerBatch := 20; maxAjaxCallsPerBatch := 50;
            flushInterval := num_or (opt_flushInterval options) 5000;
            maxBufferSize := None; resourceDedupingEnabled := None;
            visibilityFlushEnabled := None; flushAtIdle := None |};
       collectionState :=
         {| resourcesCollected := false; lastAjaxCallFlush := None;
            isBatchProcessingStarted := false; unloadSent := false;
            visibilityChangeCount := 0; pageLoaded := false;
            resourceHashMap := None |} |} in
  let w0 :=
    {| sdk := this; page := host_page; caps := host_caps; closures := [];
       listeners := []; observers := []; intervals := []; pendings := [];
       interceptors := []; registration_pending := false; outbox := [] |} in
  _init rd stamp uuid (_setupBatchedCollection w0).

(** *** Callbacks *)

Definition _flushBuffers (useBeacon : bool) (page : Page) (rd : Reading) (s : Sdk)
    : Sdk * list Transmission :=
  _prepareFinalDataAndSend useBeacon page rd s.

Definition _flushEvents (useBeacon : bool) (page : Page) (rd : Reading) (s : Sdk)
    : Sdk * list Transmission :=
  _prepareFinalDataAndSend useBeacon page rd s.

Definition _flushResources (useBeacon : bool) (page : Page) (rd : Reading) (s : Sdk)
    : Sdk * list Transmission :=
  _prepareFinalDataAndSend useBeacon page rd s.

Definition _flushWebVitals (useBeacon : bool) (page : Page) (rd : Reading) (s : Sdk)
    : Sdk * list Transmission :=
  _prepareFinalDataAndSend useBeacon page rd (_updateWebVitalsInUnifiedModel s).

Definition _refreshVisibleState (rd : Reading) (s : Sdk) : Sdk :=
  if 1 <? visibilityChangeCount (collectionState s) then _collectResources rd s else s.

Definition set_cls (i : nat) (c : ClsState Z) (w : World) : World :=
  match closures w !! i with
  | Some cell =>
      set_closures (<[i := {| lastLCPValue := lastLCPValue cell; cls := c;
                              maxDelay := maxDelay cell |}]> (closures w)) w
  | None => w
  end.

Definition set_lastLCPValue (i : nat) (v : Z) (w : World) : World :=
  match closures w !! i with
  | Some cell =>
      set_closures (<[i := {| lastLCPValue := v; cls := cls cell;
                              maxDelay := maxDelay cell |}]> (closures w)) w
  | None => w
  end.

Definition set_maxDelay (i : nat) (v : Z) (w : World) : World :=
  match closures w !! i with
  | Some cell =>
      set_closures (<[i := {| lastLCPValue := lastLCPValue cell; cls := cls cell;
                              maxDelay := v |}]> (closures w)) w
  | None => w
  end.

(** One listener's reaction to [visibilitychange].  The listener of
    [startBatchProcessing] compares the clock with a [lastVisibilityChange]
    that is never initialised, so its guarded branch is never taken. *)
Definition on_visibilitychange (rd : Reading) (w : World) (l : Listener) : World :=
  match l with
  | VitalsVisibilityChange =>
      match visibilityState rd with
      | Hidden =>
          if 0 <? Z.of_nat (length (webVitals (buffer (sdk w))))
          then post (_prepareFinalDataAndSend true (page w) rd (sdk w)) w
          else w
      | Visible => w
      end
  | ClsVisibilityChange i =>
      match closures w !! i with
      | Some cell =>
          let r := cls_visibilitychange (page w) rd (cls cell) (sdk w) in
          set_cls i (fst r) (with_sdk (fun _ => snd r) w)
      | None => w
      end
  | EventsVisibilityChange =>
      match visibilityState rd with
      | Visible =>
          with_sdk (fun s => snd (sendEvent "visibility_change" (DataOther "visible")
                                            false rd s)) w
      | Hidden =>
          with_sdk (fun s => snd (sendEvent "visibility_change" (DataOther "hidden")
                                            true rd s)) w
      end
  | LifecycleVisibilityChange =>
      let w1 := with_sdk (with_state (fun c =>
                  set_visibilityChangeCount (visibilityChangeCount c + 1) c)) w in
      match visibilityState rd with
      | Hidden => post (_prepareFinalDataAndSend true (page w1) rd (sdk w1)) w1
      | Visible => with_sdk (_refreshVisibleState rd) w1
      end
  | _ => w
  end.

(** One listener's reaction to [beforeunload]. *)
Definition on_beforeunload (rd : Reading) (w : World) (l : Listener) : World :=
  match l with
  | VitalsBeforeUnload =>
      if 0 <? Z.of_nat (length (webVitals (buffer (sdk w))))
      then post (_prepareFinalDataAndSend true (page w) rd (sdk w)) w
      else w
  | BatchBeforeUnload => post (_flushBuffers true (page w) rd (sdk w)) w
  | LifecycleBeforeUnload =>
      if negb (unloadSent (collectionState (sdk w))) then
        with_sdk (with_state (set_unloadSent true))
                 (post (_prepareFinalDataAndSend true (page w) rd (sdk w)) w)
      else w
  | _ => w
  end.

Definition on_load (rd : Reading) (w : World) (l : Listener) : World :=
  match l with
  | EventsLoad =>
      if negb (pageLoaded (collectionState (sdk w))) then
        add_pending LoadCapture (with_sdk (with_state (set_pageLoaded true)) w)
      else w
  | _ => w
  end.

Inductive ClickTarget := OnLink | OnButton | Elsewhere.

Definition is_InteractionCapture (p : Pending) : bool :=
  match p with
  | InteractionCapture => true
  | _ => false
  end.

Definition on_click (target : ClickTarget) (rd : Reading) (w : World) (l : Listener) : World :=
  match l with
  | EventsClick =>
      let w1 :=
        match target with
        | OnLink => with_sdk (fun s => snd (sendEvent "user_interaction" (DataOther "link")
                                                      false rd s)) w
        | OnButton => with_sdk (fun s => snd (sendEvent "user_interaction" (DataOther "button")
                                                        false rd s)) w
        | Elsewhere => w
        end in
      add_pending InteractionCapture
        (set_pendings (filter (fun p => is_InteractionCapture p = false) (pendings w1)) w1)
  | _ => w
  end.

(** The callback of a registered interval. *)
Definition on_tick (rd : Reading) (t : Interval) (w : World) : World :=
  match t with
  | CollectResources => with_sdk (_collectResources rd) w
  | PeriodicFlush _ =>
      if _hasSignificantData (sdk w)
      then post (_prepareFinalDataAndSend false (page w) rd (sdk w)) w
      else w
  | BatchFlush _ =>
      let w1 := if 0 <? Z.of_nat (length (events (buffer (sdk w))))
                then post (_flushEvents false (page w) rd (sdk w)) w else w in
      let w2 := if 0 <? Z.of_nat (length (webVitals (buffer (sdk w1))))
                then post (_flushWebVitals false (page w1) rd (sdk w1)) w1 else w1 in
      if 0 <? Z.of_nat (length (buf_resources (buffer (sdk w2))))
      then post (_flushResources false (page w2) rd (sdk w2)) w2 else w2
  | TrimBuffers => with_sdk trimBuffers w
  end.

(** The callback of a pending one-shot registration.  [lastResourceFlush]
    is [null] whenever the idle callback reads it, so the age test compares
    the clock itself with 30000. *)
Definition on_fire (rd : Reading) (p : Pending) (w : World) : World :=
  match p with
  | VitalsRecheck =>
      if 0 <? Z.of_nat (length (webVitals (buffer (sdk w))))
      then with_sdk _updateWebVitalsInUnifiedModel w else w
  | LoadCapture =>
      with_sdk (fun s => snd (sendEvent "page_view" (DataOther "page_view") false rd
                                        (snd (captureResourceData rd s)))) w
  | InteractionCapture => with_sdk (fun s => snd (captureResourceData rd s)) w
  | IdleCapture =>
      with_sdk (fun s => snd (sendEvent "page_ready" (DataOther "page_ready") false rd
                                        (snd (captureResourceData rd s)))) w
  | IdleFlush =>
      let shouldFlush :=
        (10 <=? Z.of_nat (length (events (buffer (sdk w)))))
        || (10 <=? Z.of_nat (length (buf_resources (buffer (sdk w)))))
        || (30000 <? now rd) in
      add_pending IdleFlush
        (if shouldFlush then post (_flushBuffers false (page w) rd (sdk w)) w else w)
  end.

(** The entries a performance observer is called with. *)
Inductive Batch :=
| LcpBatch (entries : list LcpEntry)
| TimingBatch (entries : list EventTiming)
| ShiftBatch (entries : list (ShiftEntry Z)).

(** The callback of a registered observer.  A callback that throws leaves
    the agent as it was.  The long-task observer only fills a metrics slot
    that is not part of this model. *)
Definition on_observe (rd : Reading) (o : Observer) (b : Batch) (w : World) : World :=
  match o, b with
  | ObsLCP i, LcpBatch entries =>
      match closures w !! i with
      | Some cell =>
          match lcp_callback (page w) rd entries (lastLCPValue cell) (sdk w) with
          | Normal (v, s, recheck) =>
              let w1 := set_lastLCPValue i v (with_sdk (fun _ => s) w) in
              if recheck then add_pending VitalsRecheck w1 else w1
          | Throw _ => w
          end
      | None => w
      end
  | ObsFID, TimingBatch entries =>
      match fid_callback (page w) rd entries (sdk w) with
      | Normal s => with_sdk (fun _ => s) w
      | Throw _ => w
      end
  | ObsCLS i, ShiftBatch entries =>
      match closures w !! i with
      | Some cell =>
          let '(c, s, recheck) := cls_callback rd entries (cls cell) (sdk w) in
          let w1 := set_cls i c (with_sdk (fun _ => s) w) in
          if recheck then add_pending VitalsRecheck w1 else w1
      | None => w
      end
  | ObsINP i, TimingBatch entries =>
      match closures w !! i with
      | Some cell =>
          let r := inp_callback (page w) rd entries (maxDelay cell) (sdk w) in
          set_maxDelay i (fst r) (with_sdk (fun _ => snd r) w)
      | None => w
      end
  | _, _ => w
  end.

(** The commands of the bootstrap queue that act on the instance. *)
Inductive Command :=
| CmdEvent (eventType : string) (eventData : EventData) (immediate : bool)
| CmdCaptureResources
| CmdFlushBuffers (useBeacon : bool).

Definition on_command (rd : Reading) (c : Command) (w : World) : World :=
  match c with
  | CmdEvent eventType eventData immediate =>
      with_sdk (fun s => snd (sendEvent eventType eventData immediate rd s)) w
  | CmdCaptureResources => with_sdk (fun s => snd (captureResourceData rd s)) w
  | CmdFlushBuffers useBeacon => post (snd (sendCollectedData useBeacon (page w) rd (sdk w))) w
  end.

(** What the host can deliver.  Registrations are addressed by their
    position in the registry they were added to. *)
Inductive Signal :=
| VisibilityChange
| BeforeUnload
| PageLoad
| Click (target : ClickTarget)
| Tick (k : nat)
| Fire (k : nat)
| Observe (k : nat) (b : Batch)
| RegistrationSettled (success : bool)
| NetworkCall (k : nat) (call : AjaxCall)
| Cmd (c : Command).

Definition step (w : World) (ev : Reading * Signal) : World :=
  let rd := fst ev in
  match snd ev with
  | VisibilityChange => fold_left (on_visibilitychange rd) (listeners w) w
  | BeforeUnload => fold_left (on_beforeunload rd) (listeners w) w
  | PageLoad => fold_left (on_load rd) (listeners w) w
  | Click target => fold_left (on_click target rd) (listeners w) w
  | Tick k =>
      match intervals w !! k with
      | Some t => on_tick rd t w
      | None => w
      end
  | Fire k =>
      match pendings w !! k with
      | Some p => on_fire rd p (set_pendings (delete k (pendings w)) w)
      | None => w
      end
  | Observe k b =>
      match observers w !! k with
      | Some o => on_observe rd o b w
      | None => w
      end
  | RegistrationSettled success =>
      if registration_pending w
      then registration_settled success rd (set_registration_pending false w)
      else w
  | NetworkCall k call =>
      match interceptors w !! k with
      | Some _ =>
          if FetchMonitor.is_own_call (call_url call) then w
          else match storeAjaxCallData rd call (sdk w) with
               | Normal r => post r w
               | Throw _ => w
               end
      | None => w
      end
  | Cmd c => on_command rd c w
  end.

Definition run (w : World) (evs : list (Reading * Signal)) : World :=
  fold_left step evs w.

(** The transmissions of the unified model among those posted. *)
Definition is_collect (t : Transmission) : bool := String.eqb (tx_path t) "/api/collect".

Definition collect_count (w : World) : nat := length (filter (fun t => is_collect t = true) (outbox w)).

(** ** A sample host, for the concrete runs below *)

Definition caps_full : Capabilities :=
  {| has_performance_mark := true; has_PerformanceObserver := true;
     supports_event_timing := true; supports_longtask := true; has_fetch := true;
     has_requestIdleCallback := true;
     navigation_entry :=
       Some {| responseStart := 120; nav_duration := 900; nav_type := "navigate" |} |}.

Definition page0 : Page :=
  {| href := "https://site.example/"; pathname := "/"; title := "Home"; referrer := "";
     userAgent := "Mozilla/5.0 Chrome/120"; timeOrigin := 1000000 |}.

Definition rd_at (t : Z) (v : Visibility) : Reading :=
  {| now := t; visibilityState := v; readyState_complete := true; resource_entries := [] |}.

Definition options_of (key : option string) : Options :=
  {| opt_apiKey := key; opt_endpoint := None; opt_flushInterval := None |}.

(** An agent constructed with a credential, and one constructed without. *)
Definition w_key : World :=
  Optima (options_of (Some "key")) caps_full page0 (rd_at 1000100 Visible) "lq1x" "u-u-i-d".

Definition w_nokey : World :=
  Optima (options_of None) caps_full page0 (rd_at 1000100 Visible) "lq1x" "u-u-i-d".

(** The same agents once the registration request has settled. *)
Definition w_registered : World := step w_key (rd_at 1000200 Visible, RegistrationSettled true).

Definition w_refused : World := step w_key (rd_at 1000200 Visible, RegistrationSettled false).

(** A browser's transport primitives.  [navigator.sendBeacon] parses the
    URL against the document and throws a [TypeError] when the result is not
    HTTP(S): a URL with a scheme of its own must have one of the two, a URL
    without one inherits the document's.  The server accepts every request. *)
Definition is_alpha (c : ascii) : bool :=
  let n := nat_of_ascii c in
  (((65 <=? n) && (n <=? 90)) || ((97 <=? n) && (n <=? 122)))%nat.

Definition is_scheme_char (c : ascii) : bool :=
  let n := nat_of_ascii c in
  is_alpha c || ((48 <=? n) && (n <=? 57))%nat
  || Ascii.eqb c "+" || Ascii.eqb c "-" || Ascii.eqb c ".".

Fixpoint scheme_end (url : string) : option string :=
  match url with
  | EmptyString => None
  | String c rest =>
      if Ascii.eqb c ":" then Some EmptyString
      else if is_scheme_char c then option_map (String c) (scheme_end rest)
      else None
  end.

Definition url_scheme (url : string) : option string :=
  match url with
  | String c _ => if is_alpha c then scheme_end url else None
  | EmptyString => None
  end.

Definition beacon_accepts (url : string) : bool :=
  match url_scheme url with
  | Some scheme =>
      String.eqb (Js.lowercase scheme) "http" || String.eqb (Js.lowercase scheme) "https"
  | None => true
  end.

Definition browser_host : Transport.Host :=
  {| Transport.sendBeacon :=
       Some (fun url _ =>
               if beacon_accepts url then Normal true
               else Throw (TypeError "Beacons are only supported over HTTP(S)"));
     Transport.fetch := fun _ _ =>
       Normal (Fulfilled {| Transport.ok := true; Transport.status := 200;
                            Transport.json := Fulfilled "{}" |}) |}.

Definition lcp_at (t : Z) : LcpEntry :=
  {| lcp_startTime := t; lcp_size := 4096; lcp_element := None |}.

Definition input_at (start processing : Z) : EventTiming :=
  {| et_name := "pointerdown"; et_target := None; et_startTime := start;
     et_processingStart := processing; et_processingEnd := processing + 4 |}.

Definition script_entry (url : string) (dur : Z) : ResourceEntry :=
  {| re_name := url; re_initiatorType := "script"; re_nextHopProtocol := "h2";
     re_startTime := 30; re_duration := dur; re_transferSize := 2048;
     re_encodedBodySize := 2000; re_decodedBodySize := 6000 |}.

Definition sample_call (n : Z) : AjaxCall :=
  {| call_type := KindXhr; call_method := "GET"; call_url := "https://site.example/data";
     call_status := 200; call_startTime := n; call_duration := 12;
     requestPayloadSize := 0; responseSize := 64; aborted := false; errored := false;
     timedOut := false; errorMessage := None |}.

(** ** Vocabulary of the properties *)

(** [persists s s']: what a later agent [s'] has kept of [s]. *)
Record persists (s s' : Sdk) : Prop := {
  p_sessionId : sessionId s' = sessionId s;
  p_batchConfig : batchConfig s' = batchConfig s;
  p_session_id : session_id (unifiedDataModel s') = session_id (unifiedDataModel s)
                 \/ session_id (unifiedDataModel s') = sessionId s;
  p_unloadSent : unloadSent (collectionState s) = true ->
                 unloadSent (collectionState s') = true;
  p_LCP : is_Some (LCP (web_vitals (unifiedDataModel s))) ->
          is_Some (LCP (web_vitals (unifiedDataModel s')));
  p_FID : is_Some (FID (web_vitals (unifiedDataModel s))) ->
          is_Some (FID (web_vitals (unifiedDataModel s')));
  p_CLS : is_Some (CLS (web_vitals (unifiedDataModel s))) ->
          is_Some (CLS (web_vitals (unifiedDataModel s')));
  p_TTFB : is_Some (TTFB (web_vitals (unifiedDataModel s))) ->
           is_Some (TTFB (web_vitals (unifiedDataModel s')));
  p_INP : is_Some (INP (web_vitals (unifiedDataModel s))) ->
          is_Some (INP (web_vitals (unifiedDataModel s')))
}.

(** The vitals as a whole: every slot that has a record keeps one. *)
Definition vitals_kept (v v' : WebVitals) : Prop :=
  (is_Some (LCP v) -> is_Some (LCP v')) /\ (is_Some (FID v) -> is_Some (FID v')) /\
  (is_Some (CLS v) -> is_Some (CLS v')) /\ (is_Some (TTFB v) -> is_Some (TTFB v')) /\
  (is_Some (INP v) -> is_Some (INP v')).

(** The [n] most recent of a sequence kept in insertion order. *)
Definition keep_last {A} (n : nat) (l : list A) : list A := drop (length l - n) l.

(** The agent with [maxBufferSize] set, as a host page may set it. *)
Definition with_maxBufferSize (N : Z) (s : Sdk) : Sdk :=
  {| apiKey := apiKey s; endpoint := endpoint s; sessionId := sessionId s;
     sessionStartTime := sessionStartTime s; buffer := buffer s;
     unifiedDataModel := unifiedDataModel s;
     batchConfig :=
       {| maxEventsPerBatch := maxEventsPerBatch (batchConfig s);
          maxResourcesPerBatch := maxResourcesPerBatch (batchConfig s);
          maxWebVitalsPerBatch := maxWebVitalsPerBatch (batchConfig s);
          maxAjaxCallsPerBatch := maxAjaxCallsPerBatch (batchConfig s);
          flushInterval := flushInterval (batchConfig s);
          maxBufferSize := Some N;
          resourceDedupingEnabled := resourceDedupingEnabled (batchConfig s);
          visibilityFlushEnabled := visibilityFlushEnabled (batchConfig s);
          flushAtIdle := flushAtIdle (batchConfig s) |};
     collectionState := collectionState s |}.

Definition four_events : Sdk :=
  let rd := rd_at 1000500 Visible in
  let push tag s := snd (sendEvent "user_interaction" (DataOther tag) false rd s) in
  push "d" (push "c" (push "b" (push "a" (with_maxBufferSize 3 (sdk w_registered))))).

(** Storing records through [storeAjaxCallData], one after the other. *)
Definition store_all (rd : Reading) (calls : list AjaxCall) (s : Sdk) : Sdk :=
  fold_left (fun s c => match storeAjaxCallData rd c s with
                        | Normal r => fst r
                        | Throw _ => s
                        end) calls s.

Definition two_versions : Reading :=
  {| now := 1003000; visibilityState := Visible; readyState_complete := true;
     resource_entries := [script_entry "https://cdn.example/app.js?v=1" 10;
                          script_entry "https://cdn.example/app.js?v=2" 10] |}.

Definition same_script_twice : Reading :=
  {| now := 1003000; visibilityState := Visible; readyState_complete := true;
     resource_entries := [script_entry "https://cdn.example/app.js" 10;
                          script_entry "https://cdn.example/app.js" 90] |}.

(** What reaches one LCP observer and the agent behind it: a call of the
    observer's callback with a list of entries, or the delayed re-check the
    callback schedules. *)
Inductive LcpSignal :=
| LcpEntries (rd : Reading) (entries : list LcpEntry)
| LcpRecheck.

(** The observer's variable [lastLCPValue] and the agent, after a signal. *)
Definition lcp_step (page : Page) (st : Z * Sdk) (sig : LcpSignal) : Z * Sdk :=
  match sig with
  | LcpEntries rd entries =>
      match lcp_callback page rd entries (fst st) (snd st) with
      | Normal (v, s, _) => (v, s)
      | Throw _ => st
      end
  | LcpRecheck =>
      (fst st,
       if 0 <? Z.of_nat (length (webVitals (buffer (snd st))))
       then _updateWebVitalsInUnifiedModel (snd st) else snd st)
  end.

(** The start time of the last entry of a callback, the one entry the
    callback reads. *)
Definition last_startTime (sig : LcpSignal) : option Z :=
  match sig with
  | LcpEntries _ entries => lcp_startTime <$> last entries
  | LcpRecheck => None
  end.

Definition running_max (v : Z) (sigs : list LcpSignal) : Z :=
  fold_left Z.max (omap last_startTime sigs) v.

Definition stored_LCP (s : Sdk) : option Z :=
  value <$> LCP (web_vitals (unifiedDataModel s)).






(** A buffered event is no threat to the stored LCP: it is not an LCP
    event, or its value is at most the positive [v]. *)
Definition lcp_event_below (v : Z) (ev : Event) : Prop :=
  match event_data ev with
  | DataVital d => String.eqb (vd_name d) "LCP" = true -> vd_value d <= v /\ 0 < v
  | DataOther _ => True
  end.

Definition lcp_inv (st : Z * Sdk) : Prop :=
  0 <= fst st /\
  stored_LCP (snd st) = (if 0 <? fst st then Some (fst st) else None) /\
  Forall (lcp_event_below (fst st)) (webVitals (buffer (snd st))).

Definition separate_callbacks : list LcpSignal :=
  [LcpEntries (rd_at 1000300 Visible) [lcp_at 800]; LcpRecheck;
   LcpEntries (rd_at 1000400 Visible) [lcp_at 650]].

Definition empty_buffer : Buffer :=
  {| events := []; buf_resources := []; webVitals := []; ajaxCalls := [];
     preSessionAjaxCalls := None |}.

Definition no_vitals : WebVitals :=
  {| LCP := None; FID := None; CLS := None; TTFB := None; INP := None |}.

(** The agent has no session, holds nothing in its buffers and has
    aggregated neither a vital nor a network call. *)
Definition inert_sdk (s : Sdk) : Prop :=
  sessionId s = None /\
  buffer s = empty_buffer /\
  session_id (unifiedDataModel s) = None /\
  web_vitals (unifiedDataModel s) = no_vitals /\
  ajax_requests (unifiedDataModel s) = [].

(** Nothing is registered with the host but the two timers of the
    constructor, and nothing was handed to the transport. *)
Definition inert (w : World) : Prop :=
  inert_sdk (sdk w) /\
  listeners w = [] /\ observers w = [] /\ interceptors w = [] /\ pendings w = [] /\
  closures w = [] /\ registration_pending w = false /\ outbox w = [] /\
  exists ms, intervals w = [CollectResources; PeriodicFlush ms].

(** The registrations made only by the continuation of the registration
    request: the listeners of [setupEventListeners] and
    [startBatchProcessing], and the timers of [startBatchProcessing]. *)
Definition is_gated_listener (l : Listener) : bool :=
  match l with
  | EventsLoad | EventsClick | EventsVisibilityChange
  | BatchVisibilityChange | BatchBeforeUnload => true
  | _ => false
  end.

Definition is_gated_interval (t : Interval) : bool :=
  match t with
  | BatchFlush _ | TrimBuffers => true
  | _ => false
  end.

Definition gated_listeners (w : World) : list Listener :=
  List.filter is_gated_listener (listeners w).

Definition gated_intervals (w : World) : list Interval :=
  List.filter is_gated_interval (intervals w).

(** The layout shifts that count: those without recent input. *)
Definition counted_shifts {Num} (entries : list (ShiftEntry Num)) : list (ShiftEntry Num) :=
  List.filter (fun e => negb (hadRecentInput e)) entries.

(** The durations of the entries the event-timing observer tracks. *)
Definition tracked_durations (entries : list EventTiming) : list Z :=
  map (fun e => et_processingEnd e - et_startTime e)
      (List.filter (fun e => existsb (String.eqb (et_name e)) interaction_names) entries).

Definition resource_types : list string :=
  ["image"; "script"; "stylesheet"; "xhr"; "font"; "video"; "audio"; "other"].

(** The agent with key deduplication switched on and its map initialised,
    as a host page may set them. *)
Definition with_deduping (m : gmap string Z) (s : Sdk) : Sdk :=
  {| apiKey := apiKey s; endpoint := endpoint s; sessionId := sessionId s;
     sessionStartTime := sessionStartTime s; buffer := buffer s;
     unifiedDataModel := unifiedDataModel s;
     batchConfig :=
       {| maxEventsPerBatch := maxEventsPerBatch (batchConfig s);
          maxResourcesPerBatch := maxResourcesPerBatch (batchConfig s);
          maxWebVitalsPerBatch := maxWebVitalsPerBatch (batchConfig s);
          maxAjaxCallsPerBatch := maxAjaxCallsPerBatch (batchConfig s);
          flushInterval := flushInterval (batchConfig s);
          maxBufferSize := maxBufferSize (batchConfig s);
          resourceDedupingEnabled := Some true;
          visibilityFlushEnabled := visibilityFlushEnabled (batchConfig s);
          flushAtIdle := flushAtIdle (batchConfig s) |};
     collectionState := set_resourceHashMap m (collectionState s) |}.

(** * Properties *)

Example includes_ex : Js.includes "/api/events" "http://h/api/events?x=1" = true.
Proof. reflexivity. Qed.

Example before_query_ex : Js.before_query "http://h/a.js?v=2" = "http://h/a.js".
Proof. reflexivity. Qed.

Example test_ext_ex :
  Js.test_ext ["png"; "jpg"] "http://h/a.PNG?x" = true /\
  Js.test_ext ["js"] "http://h/a.json" = false /\
  Js.test_ext ["js"] "http://h/a.js" = true.
Proof. repeat split; reflexivity. Qed.

Example slice_ex :
  Js.slice_from (-2) [1; 2; 3] = [2; 3] /\ Js.slice_from 0 [1; 2; 3] = [1; 2; 3] /\
  Js.slice_from 2 [1; 2; 3] = [3] /\ Js.slice_to 2 [1; 2; 3] = [1; 2].
Proof. repeat split; reflexivity. Qed.

(** ** Transport *)

(** When [JSON.stringify] and the host primitive return, [sendToServer]
    returns a promise that resolves with a boolean, never one that rejects.
    On an urgent call with [sendBeacon] present, the beacon is the only host
    call and its result is the value.  On every other call exactly one
    [fetch] is issued and the value is [false] when the request is rejected,
    when the response is not ok, and when its body is not JSON; an urgent
    call without [sendBeacon] is the same call as the non-urgent one. *)
Lemma sendToServer_settles {Data} (stringify : Data -> Completion string)
    (host : Transport.Host) (endpoint path : string) (data : Data)
    (apiKey : option string) (sync : bool) (serialised : string) :
  stringify data = Normal serialised ->
  let url := endpoint +:+ path in
  let opts := {| Transport.method := "POST"; Transport.content_type := "application/json";
                 Transport.x_api_key := apiKey; Transport.body := serialised |} in
  let r := Transport.sendToServer stringify host endpoint path data apiKey sync in
  (forall beacon result, sync = true -> Transport.sendBeacon host = Some beacon ->
     beacon url serialised = Normal result ->
     r = ([Transport.CallBeacon url serialised], Normal (Fulfilled result))) /\
  (sync = false \/ Transport.sendBeacon host = None ->
     fst r = [Transport.CallFetch url opts] /\
     (forall e, Transport.fetch host url opts = Normal (Rejected e) ->
        snd r = Normal (Fulfilled false)) /\
     (forall resp, Transport.fetch host url opts = Normal (Fulfilled resp) ->
        snd r = Normal (Fulfilled (Transport.ok resp &&
                                   match Transport.json resp with
                                   | Fulfilled _ => true
                                   | Rejected _ => false
                                   end)))) /\
  (Transport.sendBeacon host = None ->
     r = Transport.sendToServer stringify host endpoint path data apiKey false).
Proof.
  intros Hs url opts r. subst r url opts. unfold Transport.sendToServer. rewrite Hs.
  split; [| split].
  - intros beacon result -> -> Hb. rewrite Hb. reflexivity.
  - intros H. assert (E : (if sync then Transport.sendBeacon host else None) = None).
    { destruct H as [-> | ->]; [reflexivity | destruct sync; reflexivity]. }
    rewrite E. cbn [fst snd]. split; [reflexivity | split].
    + intros e ->. reflexivity.
    + intros resp ->. cbn [then_ catch_].
      destruct (Transport.ok resp); cbn [negb andb]; [| reflexivity].
      destruct (Transport.json resp); reflexivity.
  - intros ->. destruct sync; reflexivity.
Qed.

(** C9.  Nothing in [sendToServer] catches what [navigator.sendBeacon]
    throws: on an urgent send with the beacon present, the exception the
    beacon raises leaves [sendToServer] and reaches its caller, and no
    promise is returned. *)
Theorem sendToServer_throws_what_sendBeacon_throws {Data}
    (stringify : Data -> Completion string) (host : Transport.Host)
    (endpoint path : string) (data : Data) (apiKey : option string)
    (beacon : string -> string -> Completion bool) (blob : string) (e : JsError) :
  stringify data = Normal blob ->
  Transport.sendBeacon host = Some beacon ->
  beacon (endpoint +:+ path) blob = Throw e ->
  Transport.sendToServer stringify host endpoint path data apiKey true
    = ([Transport.CallBeacon (endpoint +:+ path) blob], Throw e).
Proof.
  intros Hs Hb He. unfold Transport.sendToServer. rewrite Hs, Hb, He. reflexivity.
Qed.

(** An endpoint configured without its scheme, [localhost:3000]: the urgent
    send throws the beacon's [TypeError]. *)
Lemma sendToServer_throws_witness :
  Transport.sendToServer (fun d : string => Normal d) browser_host "localhost:3000" "/api/collect"
      "{}" (Some "key") true
    = ([Transport.CallBeacon "localhost:3000/api/collect" "{}"],
       Throw (TypeError "Beacons are only supported over HTTP(S)")).
Proof.
  apply (sendToServer_throws_what_sendBeacon_throws (fun d : string => Normal d) browser_host
           "localhost:3000" "/api/collect" "{}" (Some "key")
           (fun url _ => if beacon_accepts url then Normal true
                         else Throw (TypeError "Beacons are only supported over HTTP(S)"))
           "{}" (TypeError "Beacons are only supported over HTTP(S)"));
    reflexivity.
Defined.

Lemma sendToServer_settles_witness :
  (fun d : string => Normal d) "{}" = Normal "{}" /\
  snd (Transport.sendToServer (fun d : string => Normal d) browser_host
         "http://localhost:3000" "/api/collect" "{}" (Some "key") false)
    = Normal (Fulfilled true).
Proof.
  split; [reflexivity |].
  destruct (sendToServer_settles (fun d : string => Normal d) browser_host
              "http://localhost:3000" "/api/collect" "{}" (Some "key") false "{}" eq_refl)
    as (_ & H & _).
  destruct (H (or_introl eq_refl)) as (_ & _ & H3).
  exact (H3 {| Transport.ok := true; Transport.status := 200;
               Transport.json := Fulfilled "{}" |} eq_refl).
Defined.

(** The same urgent send with the scheme in place is queued. *)
Example sendToServer_http_ex :
  Transport.sendToServer (fun d : string => Normal d) browser_host "http://localhost:3000"
      "/api/collect" "{}" (Some "key") true
    = ([Transport.CallBeacon "http://localhost:3000/api/collect" "{}"],
       Normal (Fulfilled true)).
Proof. reflexivity. Qed.

(** ** Fetch interception *)

(** For a string or a [Request], the wrapper calls the original [fetch]
    once, with the caller's arguments, and returns the very promise the
    original produced, whether or not the call is one of the agent's own. *)
Lemma instrumented_fetch_transparent {P} (originalFetch : FetchMonitor.Input -> option FetchMonitor.Init -> P)
    (t : Z) (input : FetchMonitor.Input) (init : option FetchMonitor.Init) :
  (forall h, input <> FetchMonitor.InObject h) ->
  let r := FetchMonitor.instrumented_fetch originalFetch t input init in
  FetchMonitor.returned r = Normal (originalFetch input init) /\
  FetchMonitor.original_calls r = [(input, init)].
Proof.
  intros Hin. unfold FetchMonitor.instrumented_fetch.
  destruct input as [u | u m | h]; [| | exfalso; eapply Hin; reflexivity];
    destruct (FetchMonitor.is_own_call u); simpl; auto.
Qed.

(** C10.  Called with a [URL] object, which the platform's [fetch]
    accepts, the instrumented [fetch] throws a [TypeError] and never
    reaches the original: the page that would have received the original's
    promise receives an exception instead. *)
Theorem instrumented_fetch_throws_on_url_object :
  forall (P : Type) (originalFetch : FetchMonitor.Input -> option FetchMonitor.Init -> P),
    let r := FetchMonitor.instrumented_fetch originalFetch 1000
               (FetchMonitor.InObject "https://api.example/items") None in
    FetchMonitor.returned r = Throw (TypeError "Cannot read properties of undefined") /\
    FetchMonitor.original_calls r = [] /\
    FetchMonitor.returned r <> Normal (originalFetch (FetchMonitor.InObject "https://api.example/items") None).
Proof. intros P originalFetch. simpl. repeat split. discriminate. Qed.

(** ** What no callback undoes

    [persists s s'] relates an agent to a later one: the session identifier
    and the configuration are the same, the model's [session_id] is unchanged or has been set to
    it, a raised [unloadSent] stays raised, and a vital that has a record
    still has one. *)

Lemma persists_refl s : persists s s.
Proof. constructor; auto. Qed.

Lemma persists_trans s1 s2 s3 : persists s1 s2 -> persists s2 s3 -> persists s1 s3.
Proof.
  intros [a1 k1 b1 c1 d1 e1 f1 g1 h1] [a2 k2 b2 c2 d2 e2 f2 g2 h2].
  constructor; auto; try congruence.
  destruct b2 as [b2 | b2]; [destruct b1; [left | right]; congruence | right; congruence].
Qed.

Ltac persists_step :=
  first [ apply persists_refl
        | constructor; simpl; auto; fail ].

Lemma vitals_kept_refl v : vitals_kept v v.
Proof. repeat split; auto. Qed.

Lemma vitals_kept_trans v1 v2 v3 : vitals_kept v1 v2 -> vitals_kept v2 v3 -> vitals_kept v1 v3.
Proof. unfold vitals_kept. intuition. Qed.

Lemma merge_vital_kept v e : vitals_kept v (merge_vital v e).
Proof.
  unfold merge_vital.
  destruct (event_data e) as [d | tag]; [| apply vitals_kept_refl].
  destruct (negb (Js.truthy (vd_name d))); [apply vitals_kept_refl |].
  repeat match goal with
         | |- context [if ?b then _ else _] => destruct b
         | |- context [match ?o with Some _ => _ | None => _ end] => destruct o
         end;
    try apply vitals_kept_refl; repeat split; simpl; eauto.
Qed.

Lemma merge_vitals_kept l : forall v, vitals_kept v (fold_left merge_vital l v).
Proof.
  induction l as [| e l IH]; intros v; simpl; [apply vitals_kept_refl |].
  eapply vitals_kept_trans; [apply merge_vital_kept | apply IH].
Qed.

Lemma persists_updateWebVitals s : persists s (_updateWebVitalsInUnifiedModel s).
Proof.
  destruct (merge_vitals_kept (webVitals (buffer s)) (web_vitals (unifiedDataModel s)))
    as (a & b & c & d & e).
  constructor; simpl; auto.
Qed.

Lemma persists_collect_one s e : persists s (collect_one s e).
Proof. unfold collect_one. destruct (_isResourceProcessed _ _); persists_step. Qed.

Lemma persists_collectResources rd s : persists s (_collectResources rd s).
Proof.
  unfold _collectResources.
  assert (H : forall l s0, persists s0 (fold_left collect_one l s0)).
  { induction l as [| e l IH]; intros s0; simpl; [apply persists_refl |].
    eapply persists_trans; [apply persists_collect_one | apply IH]. }
  eapply persists_trans; [apply H |]. persists_step.
Qed.

Lemma persists_consolidate page rd s : persists s (_consolidateBufferedData page rd s).
Proof.
  unfold _consolidateBufferedData.
  destruct (0 <? Z.of_nat (length (buf_resources (buffer s))));
    match goal with
    | |- context [0 <? Z.of_nat (length (ajaxCalls ?b))] =>
        destruct (0 <? Z.of_nat (length (ajaxCalls b)))
    end; constructor; simpl; auto.
Qed.

Lemma persists_sendUnifiedData b s : persists s (fst (_sendUnifiedData b s)).
Proof.
  unfold _sendUnifiedData.
  destruct (negb (Js.truthy_opt (session_id (unifiedDataModel s)))); simpl; persists_step.
Qed.

Lemma persists_prepare b page rd s : persists s (fst (_prepareFinalDataAndSend b page rd s)).
Proof.
  unfold _prepareFinalDataAndSend.
  eapply persists_trans; [apply persists_consolidate |].
  eapply persists_trans; [apply persists_updateWebVitals | apply persists_sendUnifiedData].
Qed.

Lemma persists_sendEvent ty d imm rd s : persists s (snd (sendEvent ty d imm rd s)).
Proof.
  unfold sendEvent. destruct (sessionId s) as [sid |] eqn:E; [| apply persists_refl].
  destruct (negb (Js.truthy sid)); [apply persists_refl |].
  destruct (String.eqb ty "core_web_vital"); simpl; [destruct imm |].
  - eapply persists_trans; [| apply persists_updateWebVitals]. persists_step.
  - persists_step.
  - persists_step.
Qed.

Lemma persists_flushAjaxCalls b rd s : persists s (fst (flushAjaxCalls b rd s)).
Proof. unfold flushAjaxCalls. destruct (ajaxCalls (buffer s)); simpl; persists_step. Qed.

Lemma persists_storeAjaxCallData rd c s r :
  storeAjaxCallData rd c s = Normal r -> persists s (fst r).
Proof.
  unfold storeAjaxCallData. destruct (Js.truthy_opt (sessionId s)).
  - match goal with |- context [if ?b then _ else _] => destruct b end;
      intros [= <-]; simpl.
    + eapply persists_trans; [| apply persists_flushAjaxCalls]. persists_step.
    + persists_step.
  - destruct (preSessionAjaxCalls (buffer s)); intros [= <-]; simpl. persists_step.
Qed.

Lemma persists_init_preSessionAjaxCalls s : persists s (init_preSessionAjaxCalls s).
Proof.
  unfold init_preSessionAjaxCalls. destruct (preSessionAjaxCalls (buffer s)); persists_step.
Qed.

Lemma persists_trimBuffers s : persists s (trimBuffers s).
Proof. unfold trimBuffers. destruct (maxBufferSize (batchConfig s)); persists_step. Qed.

Lemma sdk_with_sdk f w : sdk (with_sdk f w) = f (sdk w).
Proof. reflexivity. Qed.

Lemma sdk_set_cls i c w : sdk (set_cls i c w) = sdk w.
Proof. unfold set_cls. destruct (closures w !! i); reflexivity. Qed.

Lemma sdk_set_lastLCPValue i v w : sdk (set_lastLCPValue i v w) = sdk w.
Proof. unfold set_lastLCPValue. destruct (closures w !! i); reflexivity. Qed.

Lemma sdk_set_maxDelay i v w : sdk (set_maxDelay i v w) = sdk w.
Proof. unfold set_maxDelay. destruct (closures w !! i); reflexivity. Qed.

Lemma sdk_setupCoreWebVitals rd w : sdk (setupCoreWebVitals rd w) = sdk w.
Proof.
  unfold setupCoreWebVitals.
  destruct (has_PerformanceObserver (caps w)), (supports_event_timing (caps w)),
    (supports_longtask (caps w)); reflexivity.
Qed.

Lemma sdk_setupAjaxMonitoring w :
  sdk (setupAjaxMonitoring w) = init_preSessionAjaxCalls (sdk w).
Proof. unfold setupAjaxMonitoring. destruct (has_fetch (caps w)); reflexivity. Qed.

Lemma sdk_startBatchProcessing w : sdk (startBatchProcessing w) = sdk w.
Proof.
  unfold startBatchProcessing.
  destruct (default false (visibilityFlushEnabled (batchConfig (sdk w))));
    destruct (default false (flushAtIdle (batchConfig (sdk w))) && has_requestIdleCallback (caps w));
    reflexivity.
Qed.

Lemma persists_lcp_callback page rd entries v s v' s' r :
  lcp_callback page rd entries v s = Normal (v', s', r) -> persists s s'.
Proof.
  unfold lcp_callback. destruct (last entries) as [e |]; [| discriminate].
  destruct (lcp_startTime e >? v); intros H; inversion H; subst; [| apply persists_refl].
  eapply persists_trans; [apply persists_sendEvent |]. persists_step.
Qed.

Lemma persists_fid_callback page rd entries s s' :
  fid_callback page rd entries s = Normal s' -> persists s s'.
Proof.
  unfold fid_callback. destruct (head entries) as [e |]; [| discriminate].
  intros H; inversion H; subst.
  eapply persists_trans; [apply persists_sendEvent |]. persists_step.
Qed.

Lemma persists_cls_callback rd entries c s :
  persists s (snd (fst (cls_callback rd entries c s))).
Proof.
  unfold cls_callback.
  match goal with |- context [if ?b then _ else _] => destruct b end; simpl;
    [| apply persists_refl].
  eapply persists_trans; [apply persists_sendEvent |]. persists_step.
Qed.

Lemma persists_cls_visibilitychange page rd c s :
  persists s (snd (cls_visibilitychange page rd c s)).
Proof.
  unfold cls_visibilitychange. destruct (visibilityState rd);
    match goal with |- context [if ?b then _ else _] => destruct b end; simpl;
    persists_step.
Qed.

Lemma persists_inp_one page rd st e : persists (snd st) (snd (inp_one page rd st e)).
Proof.
  destruct st as [m s]. unfold inp_one.
  destruct (negb (existsb (String.eqb (et_name e)) interaction_names)); [apply persists_refl |].
  destruct (et_processingEnd e - et_startTime e >? m); simpl; [| apply persists_refl].
  eapply persists_trans; [apply persists_sendEvent |]. persists_step.
Qed.

Lemma persists_inp_callback page rd entries m s :
  persists s (snd (inp_callback page rd entries m s)).
Proof.
  unfold inp_callback.
  assert (H : forall l st, persists (snd st) (snd (fold_left (inp_one page rd) l st))).
  { induction l as [| e l IH]; intros st; simpl; [apply persists_refl |].
    eapply persists_trans; [apply persists_inp_one | apply IH]. }
  apply (H entries (m, s)).
Qed.

Lemma persists_fold {A} (f : World -> A -> World) :
  (forall w a, persists (sdk w) (sdk (f w a))) ->
  forall l w, persists (sdk w) (sdk (fold_left f l w)).
Proof.
  intros Hf. induction l as [| a l IH]; intros w; simpl; [apply persists_refl |].
  eapply persists_trans; [apply Hf | apply IH].
Qed.

Lemma persists_on_visibilitychange rd w l : persists (sdk w) (sdk (on_visibilitychange rd w l)).
Proof.
  destruct l; simpl; try apply persists_refl.
  - destruct (visibilityState rd); [apply persists_refl |].
    destruct (0 <? _); simpl; [apply persists_prepare | apply persists_refl].
  - destruct (closures w !! i); [| apply persists_refl].
    rewrite sdk_set_cls. simpl. apply persists_cls_visibilitychange.
  - destruct (visibilityState rd); simpl; apply persists_sendEvent.
  - destruct (visibilityState rd); simpl.
    + eapply persists_trans; [| unfold _refreshVisibleState;
        match goal with |- context [if ?b then _ else _] => destruct b end;
        [apply persists_collectResources | apply persists_refl]].
      persists_step.
    + eapply persists_trans; [| apply persists_prepare]. persists_step.
Qed.

Lemma persists_raise_unloadSent s : persists s (with_state (set_unloadSent true) s).
Proof. persists_step. Qed.

Lemma persists_on_beforeunload rd w l : persists (sdk w) (sdk (on_beforeunload rd w l)).
Proof.
  destruct l; simpl; try apply persists_refl.
  - destruct (0 <? _); simpl; [apply persists_prepare | apply persists_refl].
  - apply persists_prepare.
  - destruct (negb (unloadSent (collectionState (sdk w)))); [| apply persists_refl].
    rewrite sdk_with_sdk. change (sdk (post ?r ?x)) with (fst r).
    eapply persists_trans; [apply persists_prepare | apply persists_raise_unloadSent].
Qed.

Lemma persists_on_load rd w l : persists (sdk w) (sdk (on_load rd w l)).
Proof.
  destruct l; simpl; try apply persists_refl.
  destruct (negb (pageLoaded (collectionState (sdk w)))); simpl; persists_step.
Qed.

Lemma persists_on_click t rd w l : persists (sdk w) (sdk (on_click t rd w l)).
Proof.
  destruct l; simpl; try apply persists_refl.
  destruct t; simpl; try apply persists_sendEvent; apply persists_refl.
Qed.

Lemma persists_post_when (b : bool) (r : Sdk * list Transmission) w :
  persists (sdk w) (fst r) -> persists (sdk w) (sdk (if b then post r w else w)).
Proof. destruct b; simpl; auto using persists_refl. Qed.

Lemma persists_flushWebVitals b page rd s : persists s (fst (_flushWebVitals b page rd s)).
Proof.
  unfold _flushWebVitals.
  eapply persists_trans; [apply persists_updateWebVitals | apply persists_prepare].
Qed.

Lemma persists_on_tick rd t w : persists (sdk w) (sdk (on_tick rd t w)).
Proof.
  destruct t; unfold on_tick.
  - apply persists_collectResources.
  - apply persists_post_when, persists_prepare.
  - cbv zeta.
    eapply persists_trans; [| apply persists_post_when, persists_prepare].
    eapply persists_trans; [| apply persists_post_when, persists_flushWebVitals].
    apply persists_post_when, persists_prepare.
  - apply persists_trimBuffers.
Qed.

Lemma persists_on_fire rd p w : persists (sdk w) (sdk (on_fire rd p w)).
Proof.
  destruct p; unfold on_fire.
  - destruct (0 <? _); simpl; [apply persists_updateWebVitals | apply persists_refl].
  - simpl. eapply persists_trans; [apply persists_collectResources | apply persists_sendEvent].
  - simpl. apply persists_collectResources.
  - simpl. eapply persists_trans; [apply persists_collectResources | apply persists_sendEvent].
  - cbv zeta. change (sdk (add_pending IdleFlush ?x)) with (sdk x).
    apply persists_post_when, persists_prepare.
Qed.

Lemma persists_on_observe rd o b w : persists (sdk w) (sdk (on_observe rd o b w)).
Proof.
  destruct o, b; simpl; try apply persists_refl.
  - destruct (closures w !! i); [| apply persists_refl].
    destruct (lcp_callback _ _ _ _ _) as [[[v' s'] r] | e'] eqn:E; [| apply persists_refl].
    apply persists_lcp_callback in E.
    destruct r; simpl; rewrite sdk_set_lastLCPValue; exact E.
  - destruct (fid_callback _ _ _ _) as [s' | e'] eqn:E; [| apply persists_refl].
    apply persists_fid_callback in E. exact E.
  - destruct (closures w !! i) as [cell |]; [| apply persists_refl].
    pose proof (persists_cls_callback rd entries (cls cell) (sdk w)) as H.
    destruct (cls_callback rd entries (cls cell) (sdk w)) as [[c' s'] r].
    destruct r; simpl; rewrite sdk_set_cls; exact H.
  - destruct (closures w !! i) as [cell |]; [| apply persists_refl].
    rewrite sdk_set_maxDelay. simpl. apply persists_inp_callback.
Qed.

Lemma persists_on_command rd c w : persists (sdk w) (sdk (on_command rd c w)).
Proof.
  destruct c; simpl.
  - apply persists_sendEvent.
  - apply persists_collectResources.
  - apply persists_prepare.
Qed.

Lemma persists_setupEventListeners rd w : persists (sdk w) (sdk (setupEventListeners rd w)).
Proof.
  unfold setupEventListeners.
  destruct (negb (Js.truthy_opt (sessionId (sdk w)))); [apply persists_refl |].
  destruct (readyState_complete rd), (negb (pageLoaded (collectionState (sdk w)))),
    (has_requestIdleCallback (caps w)); simpl; persists_step.
Qed.

Lemma persists_registration_settled b rd w :
  persists (sdk w) (sdk (registration_settled b rd w)).
Proof.
  unfold registration_settled. destruct b; [| apply persists_refl].
  cbv zeta. rewrite sdk_with_sdk, sdk_startBatchProcessing.
  unfold _setupPerformanceObservers. cbv zeta.
  rewrite sdk_with_sdk, sdk_setupAjaxMonitoring, sdk_setupCoreWebVitals.
  unfold captureResourceData. cbn [snd].
  pose proof (persists_trans _ _ _ (persists_setupEventListeners rd w)
                (persists_trans _ _ _
                   (persists_init_preSessionAjaxCalls (sdk (setupEventListeners rd w)))
                   (persists_collectResources rd
                      (init_preSessionAjaxCalls (sdk (setupEventListeners rd w)))))) as H.
  destruct H as [a k b c d e f g h].
  constructor; simpl; auto; right; congruence.
Qed.

(** No callback takes back a session identifier, a raised [unloadSent] or
    a vital record. *)
Lemma persists_step_world w ev : persists (sdk w) (sdk (step w ev)).
Proof.
  destruct ev as [rd sig]. unfold step. simpl. destruct sig.
  - apply persists_fold. intros; apply persists_on_visibilitychange.
  - apply persists_fold. intros; apply persists_on_beforeunload.
  - apply persists_fold. intros; apply persists_on_load.
  - apply persists_fold. intros; apply persists_on_click.
  - destruct (intervals w !! k); [apply persists_on_tick | apply persists_refl].
  - destruct (pendings w !! k); [| apply persists_refl].
    apply (persists_on_fire rd p (set_pendings (delete k (pendings w)) w)).
  - destruct (observers w !! k); [apply persists_on_observe | apply persists_refl].
  - destruct (registration_pending w); [| apply persists_refl].
    apply (persists_registration_settled success rd (set_registration_pending false w)).
  - destruct (interceptors w !! k); [| apply persists_refl].
    destruct (FetchMonitor.is_own_call (call_url call)); [apply persists_refl |].
    destruct (storeAjaxCallData rd call (sdk w)) as [r | e] eqn:E; [| apply persists_refl].
    simpl. exact (persists_storeAjaxCallData _ _ _ _ E).
  - apply persists_on_command.
Qed.

Lemma persists_run evs : forall w, persists (sdk w) (sdk (run w evs)).
Proof.
  unfold run. induction evs as [| ev evs IH]; intros w; simpl; [apply persists_refl |].
  eapply persists_trans; [apply persists_step_world | apply IH].
Qed.

(** ** Transmission of the unified model *)

(** C8.  When the model carries a session identifier, [_sendUnifiedData]
    hands the transport one snapshot of the model as it stood and leaves
    the model with empty [resources] and [ajax_requests], the same
    [session_id] and the same vital records.  From then on, whatever the
    host delivers, the [session_id] stays and no vital loses its record. *)
Theorem volatile_reset_keeps_vitals (useBeacon : bool) (s : Sdk) :
  Js.truthy_opt (session_id (unifiedDataModel s)) = true ->
  let r := _sendUnifiedData useBeacon s in
  snd r = [{| tx_path := "/api/collect"; tx_data := UnifiedData (unifiedDataModel s);
              tx_sync := useBeacon |}] /\
  resources (unifiedDataModel (fst r)) = [] /\
  ajax_requests (unifiedDataModel (fst r)) = [] /\
  web_vitals (unifiedDataModel (fst r)) = web_vitals (unifiedDataModel s) /\
  session_id (unifiedDataModel (fst r)) = session_id (unifiedDataModel s) /\
  buffer (fst r) = buffer s /\
  forall w evs,
    sdk w = fst r -> session_id (unifiedDataModel s) = sessionId s ->
    session_id (unifiedDataModel (sdk (run w evs))) = session_id (unifiedDataModel s) /\
    vitals_kept (web_vitals (unifiedDataModel s))
                (web_vitals (unifiedDataModel (sdk (run w evs)))).
Proof.
  intros Hsid r. subst r. unfold _sendUnifiedData. rewrite Hsid. simpl.
  repeat split; try reflexivity;
    destruct (persists_run evs w) as [a k b c d e f g h]; rewrite H in *; simpl in *; auto.
  destruct b as [b | b]; congruence.
Qed.

Lemma volatile_reset_witness :
  Js.truthy_opt (session_id (unifiedDataModel (sdk w_registered))) = true /\
  resources (unifiedDataModel (fst (_sendUnifiedData true (sdk w_registered)))) = [].
Proof.
  split; [reflexivity |].
  exact (proj1 (proj2 (volatile_reset_keeps_vitals true (sdk w_registered) eq_refl))).
Defined.

(** End to end: after a successful registration one script load of 40 ms
    is collected; the next periodic flush transmits a model whose
    [resources] hold exactly that record, and the model's own array is
    empty afterwards. *)
Example scenario_script_load :
  let rd := {| now := 1003000; visibilityState := Visible; readyState_complete := true;
               resource_entries := [script_entry "https://cdn.example/app.js" 40] |} in
  let w := run w_registered [(rd, Tick 0); (rd_at 1005000 Visible, Tick 1)] in
  (exists m, last (outbox w) = Some {| tx_path := "/api/collect"; tx_data := UnifiedData m;
                                       tx_sync := false |} /\
             map res_name (resources m) = ["https://cdn.example/app.js"] /\
             map res_duration (resources m) = [40]) /\
  resources (unifiedDataModel (sdk w)) = [].
Proof. vm_compute. split; [eexists; repeat split |]; reflexivity. Qed.

(** ** Page departure *)

Lemma run_app w evs1 evs2 : run w (evs1 ++ evs2) = run (run w evs1) evs2.
Proof. unfold run. apply fold_left_app. Qed.



(** ** First input delay *)

(** The aggregator's merge rule leaves a FID record that is set alone. *)
Lemma merge_vital_keeps_FID v e r : FID v = Some r -> FID (merge_vital v e) = Some r.
Proof.
  intros H. unfold merge_vital.
  destruct (event_data e) as [d | tag]; [| exact H].
  destruct (negb (Js.truthy (vd_name d))); [exact H |].
  destruct (String.eqb (vd_name d) "LCP").
  { destruct (LCP v); [destruct (_ >? _) |]; exact H. }
  destruct (String.eqb (vd_name d) "FID").
  { rewrite H. exact H. }
  destruct (String.eqb (vd_name d) "CLS").
  { destruct (CLS v); [destruct (_ >? _) |]; exact H. }
  destruct (String.eqb (vd_name d) "INP"); [| exact H].
  destruct (INP v); [destruct (_ >? _) |]; exact H.
Qed.

Lemma merge_vitals_keep_FID l : forall v r,
  FID v = Some r -> FID (fold_left merge_vital l v) = Some r.
Proof.
  induction l as [| e l IH]; intros v r H; simpl; [exact H |].
  apply IH, merge_vital_keeps_FID, H.
Qed.

(** Once the model holds a FID record, a run of the aggregator leaves it as
    it is, whatever FID events the web-vital buffer holds. *)
Lemma updateWebVitals_keeps_FID s r :
  FID (web_vitals (unifiedDataModel s)) = Some r ->
  FID (web_vitals (unifiedDataModel (_updateWebVitalsInUnifiedModel s))) = Some r.
Proof. intros H. simpl. apply merge_vitals_keep_FID, H. Qed.

(** *** What leaves the first-input record alone

    Every method of the agent but the first-input callback keeps a
    first-input record that is set. *)






















(** *** The host's callbacks

    [calm w w']: the page is the same and the first-input record [w] holds
    is the one [w'] holds. *)




























(** ** Buffer management *)

Lemma trim_keep_last {A} (N : Z) (l : list A) :
  0 < N -> trim N l = keep_last (Z.to_nat N) l.
Proof.
  intros HN. unfold trim, keep_last, Js.slice_from.
  destruct (N <? Z.of_nat (length l)) eqn:E.
  - apply Z.ltb_lt in E. replace (- N <? 0) with true by (symmetry; apply Z.ltb_lt; lia).
    f_equal. lia.
  - apply Z.ltb_ge in E. replace (length l - Z.to_nat N)%nat with 0%nat by lia.
    reflexivity.
Qed.

Lemma length_keep_last {A} (n : nat) (l : list A) :
  length (keep_last n l) = Nat.min n (length l).
Proof. unfold keep_last. rewrite length_drop. lia. Qed.

Lemma keep_last_overflow {A} (n : nat) (l : list A) :
  length l = S n -> keep_last n l = drop 1 l /\ length (keep_last n l) = n.
Proof.
  intros H. unfold keep_last. rewrite H. replace (S n - n)%nat with 1%nat by lia.
  split; [reflexivity |]. rewrite length_drop. lia.
Qed.

(** C6 (as amended).  With a buffer size [N] of at least one configured,
    [trimBuffers] leaves in each of the event, resource and web-vital
    buffers the [N] most recent records in insertion order, all of them
    when there are no more than [N]; a buffer that had received [N + 1]
    records holds exactly the last [N] of them.  The network-call buffer is
    not trimmed. *)
Theorem trimBuffers_keeps_most_recent (s : Sdk) (N : Z) :
  maxBufferSize (batchConfig s) = Some N ->
  0 < N ->
  let n := Z.to_nat N in
  let b := buffer s in
  let b' := buffer (trimBuffers s) in
  events b' = keep_last n (events b) /\
  buf_resources b' = keep_last n (buf_resources b) /\
  webVitals b' = keep_last n (webVitals b) /\
  length (events b') = Nat.min n (length (events b)) /\
  length (buf_resources b') = Nat.min n (length (buf_resources b)) /\
  length (webVitals b') = Nat.min n (length (webVitals b)) /\
  (length (events b) = S n -> events b' = drop 1 (events b) /\ length (events b') = n) /\
  (length (buf_resources b) = S n ->
     buf_resources b' = drop 1 (buf_resources b) /\ length (buf_resources b') = n) /\
  (length (webVitals b) = S n ->
     webVitals b' = drop 1 (webVitals b) /\ length (webVitals b') = n) /\
  ajaxCalls b' = ajaxCalls b.
Proof.
  intros Hcfg HN n b b'. subst b'. unfold trimBuffers. rewrite Hcfg. simpl.
  rewrite !trim_keep_last by exact HN. fold n. fold b.
  repeat split; auto using @length_keep_last;
    match goal with
    | Hlen : length _ = S _ |- _ => apply keep_last_overflow in Hlen; tauto
    end.
Qed.

Lemma trimBuffers_witness :
  maxBufferSize (batchConfig four_events) = Some 3 /\ 0 < 3 /\
  length (events (buffer four_events)) = 4%nat /\
  events (buffer (trimBuffers four_events)) = drop 1 (events (buffer four_events)).
Proof.
  split; [reflexivity | split; [lia | split; [reflexivity |]]].
  pose proof (trimBuffers_keeps_most_recent four_events 3 eq_refl eq_refl) as H.
  exact (proj1 (proj1 (proj2 (proj2 (proj2 (proj2 (proj2 (proj2 H)))))) eq_refl)).
Defined.

Lemma buffer_cap_counterexample :
  let calls := map sample_call (seqZ 1 51) in
  let s := store_all (rd_at 1000500 Visible) calls (sdk w_registered) in
  maxAjaxCallsPerBatch (batchConfig (sdk w_registered)) = 50 /\
  ajaxCalls (buffer (sdk w_registered)) = [] /\
  length calls = 51%nat /\
  ajaxCalls (buffer s) = [sample_call 51] /\
  length (ajaxCalls (buffer s)) <> 50%nat.
Proof. vm_compute. repeat split; discriminate. Qed.

(** ** Resource collection *)

Lemma isResourceProcessed_spec url s :
  _isResourceProcessed url s = true <-> url ∈ res_name <$> resources (unifiedDataModel s).
Proof.
  unfold _isResourceProcessed. rewrite existsb_exists, list_elem_of_fmap.
  split.
  - intros (r & Hin & Heq). apply String.eqb_eq in Heq. exists r.
    split; [congruence | apply list_elem_of_In, Hin].
  - intros (r & Heq & Hin). exists r.
    split; [apply list_elem_of_In, Hin | apply String.eqb_eq; congruence].
Qed.

Lemma collect_one_resources s e :
  resources (unifiedDataModel (collect_one s e)) =
  if _isResourceProcessed (re_name e) s then resources (unifiedDataModel s)
  else (resources (unifiedDataModel s) ++ [processedResource e])%list.
Proof. unfold collect_one. destruct (_isResourceProcessed _ _); reflexivity. Qed.

Lemma collect_fold_spec (l : list ResourceEntry) : forall s,
  NoDup (res_name <$> resources (unifiedDataModel s)) ->
  let s' := fold_left collect_one l s in
  NoDup (res_name <$> resources (unifiedDataModel s')) /\
  resources (unifiedDataModel s) `prefix_of` resources (unifiedDataModel s') /\
  (forall e, e ∈ l -> re_name e ∈ res_name <$> resources (unifiedDataModel s')) /\
  (forall r, r ∈ resources (unifiedDataModel s') ->
     r ∈ resources (unifiedDataModel s) \/ exists e, e ∈ l /\ r = processedResource e).
Proof.
  induction l as [| e l IH]; intros s Hnd; simpl.
  - repeat split; auto. intros e He. inversion He.
  - set (s1 := collect_one s e).
    assert (Hs1 : NoDup (res_name <$> resources (unifiedDataModel s1)) /\
                  resources (unifiedDataModel s) `prefix_of` resources (unifiedDataModel s1) /\
                  re_name e ∈ res_name <$> resources (unifiedDataModel s1) /\
                  (forall r, r ∈ resources (unifiedDataModel s1) ->
                     r ∈ resources (unifiedDataModel s) \/ r = processedResource e)).
    { subst s1. rewrite collect_one_resources.
      destruct (_isResourceProcessed (re_name e) s) eqn:E.
      - apply isResourceProcessed_spec in E. repeat split; auto.
      - assert (Hn : re_name e ∉ res_name <$> resources (unifiedDataModel s)).
        { intros Hin. apply isResourceProcessed_spec in Hin. congruence. }
        rewrite fmap_app. simpl. repeat split.
        + apply NoDup_app. repeat split; auto.
          * intros x Hx Hx'. apply list_elem_of_singleton in Hx'. subst x. auto.
          * apply NoDup_singleton.
        + apply prefix_app_r. reflexivity.
        + apply elem_of_app. right. apply list_elem_of_singleton. reflexivity.
        + intros r Hr. apply elem_of_app in Hr. destruct Hr as [Hr | Hr]; [left; exact Hr |].
          apply list_elem_of_singleton in Hr. right. exact Hr. }
    destruct Hs1 as (Hnd1 & Hpre1 & Hin1 & Hor1).
    destruct (IH s1 Hnd1) as (Hnd' & Hpre' & Hcov' & Hor').
    repeat split.
    + exact Hnd'.
    + etransitivity; eassumption.
    + intros e0 He0. apply elem_of_cons in He0. destruct He0 as [-> | He0]; [| auto].
      destruct Hpre' as [k Hk]. fold s1. rewrite Hk, fmap_app. apply elem_of_app. left. exact Hin1.
    + intros r Hr. destruct (Hor' r Hr) as [Hr1 | (e0 & He0 & ->)].
      * destruct (Hor1 r Hr1) as [? | ->]; [left; assumption |].
        right. exists e. split; [apply elem_of_cons; left; reflexivity | reflexivity].
      * right. exists e0. split; [apply elem_of_cons; right; exact He0 | reflexivity].
Qed.

(** C4 (as amended).  The collection path keys a resource by its full
    name: if the records in the model have distinct names, then after
    [_collectResources] they still have; the records already there stay in
    place in front, every entry the host reported has its name in the
    model, and each added record is the processed form of a reported
    entry.  Of two reported entries with one name, the first alone is
    kept. *)
Theorem collectResources_dedups_by_name (rd : Reading) (s : Sdk) :
  NoDup (res_name <$> resources (unifiedDataModel s)) ->
  let s' := _collectResources rd s in
  NoDup (res_name <$> resources (unifiedDataModel s')) /\
  resources (unifiedDataModel s) `prefix_of` resources (unifiedDataModel s') /\
  (forall e, e ∈ resource_entries rd ->
     re_name e ∈ res_name <$> resources (unifiedDataModel s')) /\
  (forall r, r ∈ resources (unifiedDataModel s') ->
     r ∈ resources (unifiedDataModel s) \/
     exists e, e ∈ resource_entries rd /\ r = processedResource e) /\
  (forall e1 e2, resource_entries rd = [e1; e2] -> re_name e1 = re_name e2 ->
     re_name e1 ∉ res_name <$> resources (unifiedDataModel s) ->
     resources (unifiedDataModel s') =
       (resources (unifiedDataModel s) ++ [processedResource e1])%list).
Proof.
  intros Hnd s'. subst s'. unfold _collectResources.
  change (unifiedDataModel (with_state ?f ?x)) with (unifiedDataModel x).
  destruct (collect_fold_spec (resource_entries rd) s Hnd) as (H1 & H2 & H3 & H4).
  repeat split; auto.
  intros e1 e2 Hl Heq Hnew. rewrite Hl. simpl.
  rewrite !collect_one_resources.
  destruct (_isResourceProcessed (re_name e1) s) eqn:E1.
  { apply isResourceProcessed_spec in E1. contradiction. }
  destruct (_isResourceProcessed (re_name e2) (collect_one s e1)) eqn:E2; [reflexivity |].
  exfalso. assert (Hin : _isResourceProcessed (re_name e2) (collect_one s e1) = true).
  { apply isResourceProcessed_spec. rewrite collect_one_resources, E1, fmap_app.
    apply elem_of_app. right. simpl. apply list_elem_of_singleton. congruence. }
  congruence.
Qed.

Lemma collectResources_witness :
  NoDup (res_name <$> resources (unifiedDataModel (sdk w_registered))) /\
  res_duration <$> resources (unifiedDataModel (_collectResources same_script_twice (sdk w_registered)))
    = [10].
Proof.
  assert (Hnd : NoDup (res_name <$> resources (unifiedDataModel (sdk w_registered))))
    by (vm_compute; constructor).
  split; [exact Hnd |].
  destruct (collectResources_dedups_by_name same_script_twice (sdk w_registered) Hnd)
    as (_ & _ & _ & _ & H).
  rewrite (H _ _ eq_refl eq_refl); [reflexivity |].
  vm_compute. intros Hin. inversion Hin.
Defined.

(** Two entries that differ only in their query string have one composite
    key and are both collected; and the key test itself accepts both,
    deduplication not being enabled in the configuration the constructor
    builds. *)
Lemma resource_dedup_counterexample :
  let s := sdk w_registered in
  let rs := resources (unifiedDataModel (_collectResources two_versions s)) in
  resources (unifiedDataModel s) = [] /\
  res_name <$> rs = ["https://cdn.example/app.js?v=1"; "https://cdn.example/app.js?v=2"] /\
  hashResource <$> rs = ["script|https://cdn.example/app.js|fast";
                         "script|https://cdn.example/app.js|fast"] /\
  (forall r, r ∈ rs -> shouldCollectResource two_versions r s = Normal (true, s)).
Proof.
  split; [vm_compute; reflexivity |].
  split; [vm_compute; reflexivity |].
  split; [vm_compute; reflexivity |].
  intros r _. vm_compute. reflexivity.
Qed.

(** ** Largest contentful paint *)

Lemma lcp_event_below_mono v v' ev : v <= v' -> lcp_event_below v ev -> lcp_event_below v' ev.
Proof.
  unfold lcp_event_below. destruct (event_data ev); [| auto].
  intros Hle H Hn. destruct (H Hn). lia.
Qed.

Lemma merge_vital_keeps_LCP v m ev :
  0 <= v ->
  value <$> LCP m = (if 0 <? v then Some v else None) ->
  lcp_event_below v ev ->
  LCP (merge_vital m ev) = LCP m.
Proof.
  intros Hv Hm Hev. unfold merge_vital, lcp_event_below in *.
  destruct (event_data ev) as [d | tag]; [| reflexivity].
  destruct (negb (Js.truthy (vd_name d))); [reflexivity |].
  destruct (String.eqb (vd_name d) "LCP") eqn:En.
  { destruct (Hev eq_refl) as [Hle Hpos].
    replace (0 <? v) with true in Hm by (symmetry; apply Z.ltb_lt; exact Hpos).
    destruct (LCP m) as [r |] eqn:EL; [| discriminate]. simpl in Hm. inversion Hm as [Hr].
    replace (vd_value d >? value r) with false; [exact EL |].
    symmetry. rewrite Z.gtb_ltb. apply Z.ltb_ge. lia. }
  destruct (String.eqb (vd_name d) "FID").
  { destruct (FID m); reflexivity. }
  destruct (String.eqb (vd_name d) "CLS").
  { destruct (CLS m); [destruct (_ >? _) |]; reflexivity. }
  destruct (String.eqb (vd_name d) "INP"); [| reflexivity].
  destruct (INP m); [destruct (_ >? _) |]; reflexivity.
Qed.

Lemma merge_vitals_keep_LCP v l : forall m,
  0 <= v ->
  value <$> LCP m = (if 0 <? v then Some v else None) ->
  Forall (lcp_event_below v) l ->
  LCP (fold_left merge_vital l m) = LCP m.
Proof.
  induction l as [| ev l IH]; intros m Hv Hm Hl; simpl; [reflexivity |].
  inversion Hl as [| ? ? Hev Hl']; subst.
  pose proof (merge_vital_keeps_LCP v m ev Hv Hm Hev) as E.
  rewrite IH; [exact E | exact Hv | rewrite E; exact Hm | exact Hl'].
Qed.

Lemma lcp_step_inv page st sig :
  lcp_inv st ->
  lcp_inv (lcp_step page st sig) /\
  fst (lcp_step page st sig) =
    match last_startTime sig with
    | Some t => Z.max (fst st) t
    | None => fst st
    end /\
  (LCP (web_vitals (unifiedDataModel (snd (lcp_step page st sig)))) =
     LCP (web_vitals (unifiedDataModel (snd st))) \/
   exists t, last_startTime sig = Some t /\ fst st < t /\
             stored_LCP (snd (lcp_step page st sig)) = Some t).
Proof.
  destruct st as [v s]. intros (Hv & Hst & Hbuf). simpl in Hv, Hst, Hbuf.
  destruct sig as [rd entries |]; simpl.
  - unfold lcp_callback. destruct (last entries) as [e |]; simpl.
    2: { repeat split; auto. }
    destruct (lcp_startTime e >? v) eqn:E.
    + rewrite Z.gtb_ltb in E. apply Z.ltb_lt in E.
      assert (Hpos : 0 < lcp_startTime e) by lia.
      repeat split; simpl; try lia.
      * unfold stored_LCP. simpl.
        replace (0 <? lcp_startTime e) with true by (symmetry; apply Z.ltb_lt; lia).
        reflexivity.
      * unfold sendEvent. destruct (sessionId s) as [sid |]; simpl.
        2: { eapply Forall_impl; [exact Hbuf |].
             intros ev. apply lcp_event_below_mono. lia. }
        destruct (negb (Js.truthy sid)); simpl.
        { eapply Forall_impl; [exact Hbuf |].
          intros ev. apply lcp_event_below_mono. lia. }
        apply Forall_app. split.
        { eapply Forall_impl; [exact Hbuf |].
          intros ev. apply lcp_event_below_mono. lia. }
        constructor; [| constructor].
        unfold lcp_event_below. simpl. intros _. lia.
      * right. exists (lcp_startTime e). repeat split; first [lia | reflexivity].
    + rewrite Z.gtb_ltb in E. apply Z.ltb_ge in E.
      repeat split; simpl; auto. lia.
  - destruct (0 <? Z.of_nat (length (webVitals (buffer s)))); simpl.
    2: { repeat split; auto. }
    pose proof (merge_vitals_keep_LCP v (webVitals (buffer s))
                  (web_vitals (unifiedDataModel s)) Hv Hst Hbuf) as E.
    repeat split; simpl; auto.
    unfold stored_LCP. simpl. rewrite E. exact Hst.
Qed.

Lemma lcp_run_inv page sigs : forall st,
  lcp_inv st ->
  lcp_inv (fold_left (lcp_step page) sigs st) /\
  fst (fold_left (lcp_step page) sigs st) = running_max (fst st) sigs.
Proof.
  unfold running_max.
  induction sigs as [| sig sigs IH]; intros st Hinv; simpl; [auto |].
  destruct (lcp_step_inv page st sig Hinv) as (Hinv' & Hfst & _).
  destruct (IH _ Hinv') as (H1 & H2). split; [exact H1 |].
  rewrite H2, Hfst. destruct (last_startTime sig); reflexivity.
Qed.

(** C3 (as amended).  Start from an observer that has seen nothing and an
    agent with no LCP record and no LCP event waiting in its buffer.  After
    any sequence of callbacks and re-checks the stored LCP value is the
    largest start time among the last entries of the callbacks, and there is
    no record as long as none of them is positive.  One more signal changes
    the record only if it is a callback whose last entry starts strictly
    later than every last entry before it, and then that start time is
    stored. *)
Theorem lcp_keeps_maximum_of_last_entries (page : Page) (s : Sdk)
    (sigs : list LcpSignal) (sig : LcpSignal) :
  LCP (web_vitals (unifiedDataModel s)) = None ->
  Forall (lcp_event_below 0) (webVitals (buffer s)) ->
  let st := fold_left (lcp_step page) sigs (0, s) in
  let st' := lcp_step page st sig in
  let best := running_max 0 sigs in
  fst st = best /\
  stored_LCP (snd st) = (if 0 <? best then Some best else None) /\
  (LCP (web_vitals (unifiedDataModel (snd st'))) =
     LCP (web_vitals (unifiedDataModel (snd st))) \/
   exists t, last_startTime sig = Some t /\ best < t /\ stored_LCP (snd st') = Some t).
Proof.
  intros Hnone Hbuf st st' best.
  assert (Hinv0 : lcp_inv (0, s)).
  { repeat split; simpl; [lia | unfold stored_LCP; rewrite Hnone; reflexivity | exact Hbuf]. }
  destruct (lcp_run_inv page sigs (0, s) Hinv0) as (Hinv & Hfst).
  simpl in Hfst. fold st in Hinv, Hfst. fold best in Hfst.
  destruct Hinv as (Hv & Hst & Hb).
  split; [exact Hfst | split].
  - rewrite <- Hfst. exact Hst.
  - destruct (lcp_step_inv page st sig (conj Hv (conj Hst Hb))) as (_ & _ & H).
    subst st'. rewrite <- Hfst. exact H.
Qed.

Lemma lcp_witness :
  LCP (web_vitals (unifiedDataModel (sdk w_key))) = None /\
  Forall (lcp_event_below 0) (webVitals (buffer (sdk w_key))) /\
  stored_LCP (snd (fold_left (lcp_step page0) separate_callbacks (0, sdk w_key))) = Some 800.
Proof.
  assert (H1 : LCP (web_vitals (unifiedDataModel (sdk w_key))) = None) by reflexivity.
  assert (H2 : Forall (lcp_event_below 0) (webVitals (buffer (sdk w_key))))
    by (vm_compute; constructor).
  split; [exact H1 | split; [exact H2 |]].
  exact (proj1 (proj2 (lcp_keeps_maximum_of_last_entries page0 (sdk w_key)
                         separate_callbacks LcpRecheck H1 H2))).
Defined.

(** One callback that delivers the entries 800 and 650 together stores
    650, not the maximum 800: only the last entry of a callback is read. *)
Lemma lcp_maximum_counterexample :
  let w := run w_key [(rd_at 1000300 Visible, Observe 0 (LcpBatch [lcp_at 800; lcp_at 650]))] in
  observers w_key !! 0%nat = Some (ObsLCP 0) /\
  stored_LCP (sdk w_key) = None /\
  stored_LCP (sdk w) = Some 650 /\
  stored_LCP (sdk w) <> Some (Z.max 800 650).
Proof. vm_compute. repeat split; discriminate. Qed.

(** ** An agent constructed without a credential *)

Lemma inert_collect_one s e : inert_sdk s -> inert_sdk (collect_one s e).
Proof.
  unfold collect_one. destruct (_isResourceProcessed _ _); [auto |].
  intros (a & b & c & d & f). repeat split; assumption.
Qed.

Lemma inert_collectResources rd s : inert_sdk s -> inert_sdk (_collectResources rd s).
Proof.
  unfold _collectResources. intros H.
  assert (Hf : forall l s0, inert_sdk s0 -> inert_sdk (fold_left collect_one l s0)).
  { induction l as [| e l IH]; intros s0 H0; simpl; [exact H0 |].
    apply IH, inert_collect_one, H0. }
  destruct (Hf (resource_entries rd) s H) as (a & b & c & d & f).
  repeat split; assumption.
Qed.

(** On such an agent a flush transmits nothing, empties nothing and
    aggregates nothing: it only stamps the model with the clock and the
    page's metadata. *)
Lemma inert_prepare b page rd s :
  inert_sdk s ->
  snd (_prepareFinalDataAndSend b page rd s) = [] /\
  fst (_prepareFinalDataAndSend b page rd s) =
    _updateMetadata page rd (with_model (set_session None (Some (now rd))) s).
Proof.
  intros (Hsid & Hbuf & Hmsid & Hv & Hajax).
  destruct s as [k ep sid sst buf m cfg st]. simpl in *. subst sid buf.
  unfold _prepareFinalDataAndSend, _consolidateBufferedData, _updateWebVitalsInUnifiedModel,
    _sendUnifiedData. simpl. split; reflexivity.
Qed.

Lemma inert_after_prepare b page rd s :
  inert_sdk s -> inert_sdk (fst (_prepareFinalDataAndSend b page rd s)).
Proof.
  intros H. destruct (inert_prepare b page rd s H) as [_ ->].
  destruct H as (a & c & d & e & f). repeat split; assumption.
Qed.

Lemma inert_sendEvent ty d imm rd s : inert_sdk s -> sendEvent ty d imm rd s = (false, s).
Proof. intros (H & _). unfold sendEvent. rewrite H. reflexivity. Qed.

Lemma inert_post r w :
  inert w -> snd r = [] -> inert_sdk (fst r) -> inert (post r w).
Proof.
  intros (_ & a & b & c & d & e & f & g & h) Hnil Hs.
  unfold inert. simpl. rewrite g, Hnil. repeat split; auto; apply Hs.
Qed.

Lemma inert_with_sdk f w :
  inert w -> inert_sdk (f (sdk w)) -> inert (with_sdk f w).
Proof.
  intros (_ & a & b & c & d & e & g & h & i) Hs.
  unfold inert. simpl. repeat split; auto; apply Hs.
Qed.

Lemma inert_step w ev : inert w -> inert (step w ev).
Proof.
  intros Hw. pose proof Hw as (Hs & Hl & Ho & Hi & Hp & Hc & Hr & Hout & ms & Ht).
  destruct ev as [rd sig]. unfold step. simpl.
  destruct sig; try (rewrite Hl; exact Hw).
  - rewrite Ht. destruct k as [| [| k]]; simpl; [| | exact Hw].
    + apply inert_with_sdk; [exact Hw | apply inert_collectResources, Hs].
    + destruct (_hasSignificantData (sdk w)); [| exact Hw].
      apply inert_post; [exact Hw | apply inert_prepare, Hs | apply inert_after_prepare, Hs].
  - rewrite Hp. exact Hw.
  - rewrite Ho. exact Hw.
  - rewrite Hr. exact Hw.
  - rewrite Hi. exact Hw.
  - destruct c; simpl.
    + apply inert_with_sdk; [exact Hw |]. rewrite inert_sendEvent by exact Hs. exact Hs.
    + apply inert_with_sdk; [exact Hw | apply inert_collectResources, Hs].
    + apply inert_post; [exact Hw | apply inert_prepare, Hs | apply inert_after_prepare, Hs].
Qed.

Lemma inert_run evs : forall w, inert w -> inert (run w evs).
Proof.
  unfold run. induction evs as [| ev evs IH]; intros w Hw; simpl; [exact Hw |].
  apply IH, inert_step, Hw.
Qed.

Lemma inert_Optima options host_caps host_page rd stamp uuid :
  Js.truthy_opt (opt_apiKey options) = false ->
  inert (Optima options host_caps host_page rd stamp uuid).
Proof.
  intros Hkey. unfold Optima, _init, _setupBatchedCollection. simpl. rewrite Hkey. simpl.
  unfold inert, inert_sdk. simpl. repeat split; eauto.
Qed.

(** C5 (as amended).  Constructed without a credential, the agent has no
    session identifier, and that stays so whatever the host delivers
    afterwards: no listener, observer or network patch is registered, nothing
    is transmitted, the buffers stay empty and no vital or network call is
    aggregated.  A flush then transmits nothing and leaves the buffers, the
    vitals and the model's two arrays as they were; what it does change is
    the model's timestamp and metadata. *)
Theorem no_credential_inert (options : Options) (host_caps : Capabilities)
    (host_page : Page) (rd : Reading) (stamp uuid : string)
    (evs : list (Reading * Signal)) (rd' : Reading) (useBeacon : bool) :
  Js.truthy_opt (opt_apiKey options) = false ->
  let w := run (Optima options host_caps host_page rd stamp uuid) evs in
  let w' := step w (rd', Cmd (CmdFlushBuffers useBeacon)) in
  sessionId (sdk w) = None /\
  listeners w = [] /\ observers w = [] /\ interceptors w = [] /\
  outbox w = [] /\
  buffer (sdk w) = empty_buffer /\
  web_vitals (unifiedDataModel (sdk w)) = no_vitals /\
  ajax_requests (unifiedDataModel (sdk w)) = [] /\
  outbox w' = [] /\
  buffer (sdk w') = buffer (sdk w) /\
  web_vitals (unifiedDataModel (sdk w')) = web_vitals (unifiedDataModel (sdk w)) /\
  resources (unifiedDataModel (sdk w')) = resources (unifiedDataModel (sdk w)) /\
  ajax_requests (unifiedDataModel (sdk w')) = ajax_requests (unifiedDataModel (sdk w)) /\
  session_id (unifiedDataModel (sdk w')) = None /\
  model_timestamp (unifiedDataModel (sdk w')) = Some (now rd').
Proof.
  intros Hkey w w'.
  assert (Hw : inert w) by (apply inert_run, inert_Optima, Hkey).
  clearbody w.
  pose proof Hw as ((Hsid & Hbuf & Hmsid & Hv & Hajax) & Hl & Ho & Hi & Hp & Hc & Hr & Hout & _).
  assert (Hs : inert_sdk (sdk w)) by apply Hw.
  destruct (inert_prepare useBeacon (page w) rd' (sdk w) Hs) as (Htx & Hfst).
  assert (Hsdk : sdk w' = _updateMetadata (page w) rd'
                   (with_model (set_session None (Some (now rd'))) (sdk w))).
  { subst w'. unfold step. simpl. exact Hfst. }
  assert (Hout' : outbox w' = []).
  { subst w'. unfold step. simpl. rewrite Hout, Htx. reflexivity. }
  refine (conj Hsid (conj Hl (conj Ho (conj Hi (conj Hout (conj Hbuf
            (conj Hv (conj Hajax (conj Hout' _))))))))).
  rewrite Hsdk. clear. simpl. repeat split; reflexivity.
Qed.

Lemma no_credential_witness :
  Js.truthy_opt (opt_apiKey (options_of None)) = false /\
  observers (run w_nokey [(rd_at 1003000 Visible, Tick 0); (rd_at 1005000 Visible, Tick 1)]) = [].
Proof.
  split; [reflexivity |].
  exact (proj1 (proj2 (proj2
    (no_credential_inert (options_of None) caps_full page0 (rd_at 1000100 Visible)
       "lq1x" "u-u-i-d" [(rd_at 1003000 Visible, Tick 0); (rd_at 1005000 Visible, Tick 1)]
       (rd_at 1006000 Visible) false eq_refl)))).
Defined.

(** A flush of the agent constructed without a credential is not a no-op
    on the unified model: it writes the timestamp and the metadata. *)
Lemma no_credential_flush_counterexample :
  let w' := step w_nokey (rd_at 1003000 Visible, Cmd (CmdFlushBuffers false)) in
  model_timestamp (unifiedDataModel (sdk w_nokey)) = None /\
  meta (unifiedDataModel (sdk w_nokey)) = None /\
  model_timestamp (unifiedDataModel (sdk w')) = Some 1003000 /\
  meta (unifiedDataModel (sdk w')) <> None /\
  unifiedDataModel (sdk w') <> unifiedDataModel (sdk w_nokey).
Proof. vm_compute. repeat split; discriminate. Qed.

(** ** Activation *)

Lemma registration_refused w rd :
  registration_pending w = true ->
  step w (rd, RegistrationSettled false) = set_registration_pending false w.
Proof. intros H. unfold step. simpl. rewrite H. reflexivity. Qed.

Lemma session_id_truthy stamp uuid : Js.truthy (stamp +:+ "-" +:+ uuid) = true.
Proof. destruct stamp; reflexivity. Qed.

(** What the constructor leaves behind when it is given a credential. *)
Lemma Optima_with_key options host_caps host_page rd stamp uuid :
  Js.truthy_opt (opt_apiKey options) = true ->
  let w0 := Optima options host_caps host_page rd stamp uuid in
  let sid := stamp +:+ "-" +:+ uuid in
  head (interceptors w0) = Some XhrPatch /\
  sessionId (sdk w0) = Some sid /\
  outbox w0 = [{| tx_path := "/api/sessions"; tx_data := SessionData sid host_page (now rd);
                  tx_sync := false |}] /\
  registration_pending w0 = true /\
  gated_listeners w0 = [] /\
  gated_intervals w0 = [] /\
  pendings w0 = [] /\
  sessionStartTime (sdk w0) = None /\
  pageLoaded (collectionState (sdk w0)) = false /\
  visibilityFlushEnabled (batchConfig (sdk w0)) = None /\
  flushAtIdle (batchConfig (sdk w0)) = None /\
  flushInterval (batchConfig (sdk w0)) = num_or (opt_flushInterval options) 5000 /\
  caps w0 = host_caps.
Proof.
  intros Hkey w0 sid. subst w0 sid.
  destruct options as [[k |] ep fi]; [| discriminate]. simpl in Hkey.
  destruct k as [| c k]; [discriminate |]. clear Hkey.
  destruct host_caps as [c1 c2 c3 c4 c5 c6 nav].
  destruct c1, c2, c3, c4, c5, c6, nav as [n |];
    vm_compute; repeat split; reflexivity.
Qed.

Lemma setupEventListeners_adds rd w :
  Js.truthy_opt (sessionId (sdk w)) = true ->
  pageLoaded (collectionState (sdk w)) = false ->
  let w1 := setupEventListeners rd w in
  gated_listeners w1 =
    (gated_listeners w ++ (if readyState_complete rd then [] else [EventsLoad])
     ++ [EventsClick; EventsVisibilityChange])%list /\
  intervals w1 = intervals w /\
  pendings w1 =
    (pendings w ++ (if readyState_complete rd then [LoadCapture] else [])
     ++ (if has_requestIdleCallback (caps w) then [IdleCapture] else []))%list /\
  outbox w1 = outbox w /\ caps w1 = caps w /\
  sessionId (sdk w1) = sessionId (sdk w) /\
  batchConfig (sdk w1) = batchConfig (sdk w).
Proof.
  intros Hsid Hpl w1. subst w1. unfold setupEventListeners, gated_listeners.
  rewrite Hsid, Hpl. cbn [negb].
  destruct (readyState_complete rd), (has_requestIdleCallback (caps w)); cbn;
    rewrite ?List.filter_app; cbn; rewrite ?app_nil_r, <- ?app_assoc;
    repeat split; reflexivity.
Qed.

Lemma setupCoreWebVitals_keeps rd w :
  let w1 := setupCoreWebVitals rd w in
  gated_listeners w1 = gated_listeners w /\
  intervals w1 = intervals w /\ pendings w1 = pendings w /\
  outbox w1 = outbox w /\ caps w1 = caps w /\ sdk w1 = sdk w.
Proof.
  intros w1. subst w1. unfold setupCoreWebVitals, gated_listeners.
  destruct (has_PerformanceObserver (caps w)), (supports_event_timing (caps w)),
    (supports_longtask (caps w)); cbn;
    rewrite ?List.filter_app; cbn; rewrite ?app_nil_r; repeat split; reflexivity.
Qed.

Lemma setupAjaxMonitoring_keeps w :
  let w1 := setupAjaxMonitoring w in
  listeners w1 = listeners w /\
  intervals w1 = intervals w /\ pendings w1 = pendings w /\
  outbox w1 = outbox w /\ caps w1 = caps w /\
  sdk w1 = init_preSessionAjaxCalls (sdk w).
Proof.
  intros w1. subst w1. unfold setupAjaxMonitoring.
  destruct (has_fetch (caps w)); repeat split; reflexivity.
Qed.

Lemma setupPerformanceObservers_adds rd w :
  let w1 := _setupPerformanceObservers rd w in
  gated_listeners w1 = gated_listeners w /\
  intervals w1 = intervals w /\ pendings w1 = pendings w /\
  outbox w1 = outbox w /\ caps w1 = caps w /\
  sessionId (sdk w1) = sessionId (sdk w) /\
  batchConfig (sdk w1) = batchConfig (sdk w).
Proof.
  intros w1. subst w1. unfold _setupPerformanceObservers. cbv zeta.
  destruct (setupCoreWebVitals_keeps rd w) as (A1 & A2 & A3 & A4 & A5 & A6).
  set (wa := setupCoreWebVitals rd w) in *. clearbody wa.
  destruct (setupAjaxMonitoring_keeps wa) as (B1 & B2 & B3 & B4 & B5 & B6).
  set (wb := setupAjaxMonitoring wa) in *. clearbody wb.
  unfold gated_listeners in *. unfold captureResourceData.
  cbn [with_sdk listeners intervals pendings outbox caps sdk snd].
  rewrite B1, B2, B3, B4, B5, B6, A1, A2, A3, A4, A5, A6.
  pose proof (persists_trans _ _ _ (persists_init_preSessionAjaxCalls (sdk w))
                (persists_collectResources rd (init_preSessionAjaxCalls (sdk w)))) as Hp.
  split; [reflexivity |]. split; [reflexivity |]. split; [reflexivity |].
  split; [reflexivity |]. split; [reflexivity |]. split; apply Hp.
Qed.

Lemma startBatchProcessing_adds w :
  visibilityFlushEnabled (batchConfig (sdk w)) = None ->
  flushAtIdle (batchConfig (sdk w)) = None ->
  let w1 := startBatchProcessing w in
  gated_listeners w1 = (gated_listeners w ++ [BatchBeforeUnload])%list /\
  gated_intervals w1 =
    (gated_intervals w
     ++ [BatchFlush (Z.min (flushInterval (batchConfig (sdk w))) 10000); TrimBuffers])%list /\
  pendings w1 = pendings w /\ outbox w1 = outbox w /\ sdk w1 = sdk w.
Proof.
  intros Hv Hi w1. subst w1. unfold startBatchProcessing, gated_listeners, gated_intervals.
  rewrite Hv, Hi. cbn. rewrite !List.filter_app. cbn. rewrite <- app_assoc.
  repeat split; reflexivity.
Qed.

(** What the continuation of an accepted registration adds. *)
Lemma registration_accepted w rd :
  registration_pending w = true ->
  Js.truthy_opt (sessionId (sdk w)) = true ->
  pageLoaded (collectionState (sdk w)) = false ->
  visibilityFlushEnabled (batchConfig (sdk w)) = None ->
  flushAtIdle (batchConfig (sdk w)) = None ->
  let w1 := step w (rd, RegistrationSettled true) in
  gated_listeners w1 =
    (gated_listeners w ++ (if readyState_complete rd then [] else [EventsLoad])
     ++ [EventsClick; EventsVisibilityChange; BatchBeforeUnload])%list /\
  gated_intervals w1 =
    (gated_intervals w
     ++ [BatchFlush (Z.min (flushInterval (batchConfig (sdk w))) 10000); TrimBuffers])%list /\
  pendings w1 =
    (pendings w ++ (if readyState_complete rd then [LoadCapture] else [])
     ++ (if has_requestIdleCallback (caps w) then [IdleCapture] else []))%list /\
  sessionStartTime (sdk w1) = Some (now rd) /\
  session_id (unifiedDataModel (sdk w1)) = sessionId (sdk w) /\
  outbox w1 = outbox w.
Proof.
  intros Hpend Hsid Hpl Hv Hi w1. subst w1.
  unfold step. cbn [fst snd]. rewrite Hpend.
  set (w0 := set_registration_pending false w).
  assert (E0 : sdk w0 = sdk w /\ gated_listeners w0 = gated_listeners w /\
               gated_intervals w0 = gated_intervals w /\ pendings w0 = pendings w /\
               outbox w0 = outbox w /\ caps w0 = caps w) by (repeat split; reflexivity).
  destruct E0 as (Es & El & Et & Ep & Eo & Ec). clearbody w0.
  rewrite <- Es in Hsid, Hpl, Hv, Hi. rewrite <- Es, <- El, <- Et, <- Ep, <- Eo, <- Ec.
  clear Es El Et Ep Eo Ec Hpend w.
  unfold registration_settled.
  destruct (setupEventListeners_adds rd w0 Hsid Hpl) as (A1 & A2 & A3 & A4 & A5 & A6 & A7).
  set (wa := setupEventListeners rd w0) in *. clearbody wa.
  destruct (setupPerformanceObservers_adds rd wa) as (B1 & B2 & B3 & B4 & B5 & B6 & B7).
  set (wb := _setupPerformanceObservers rd wa) in *. clearbody wb.
  assert (Hv' : visibilityFlushEnabled (batchConfig (sdk wb)) = None) by congruence.
  assert (Hi' : flushAtIdle (batchConfig (sdk wb)) = None) by congruence.
  destruct (startBatchProcessing_adds wb Hv' Hi') as (C1 & C2 & C3 & C4 & C5).
  set (wc := startBatchProcessing wb) in *. clearbody wc.
  cbv zeta. unfold gated_listeners, gated_intervals in *.
  cbn [with_sdk listeners intervals pendings outbox sdk].
  rewrite C1, C2, C3, C4, C5, B1, B2, B3, B4, A1, A2, A3, A4, B7, A7.
  rewrite <- !app_assoc. cbn [app].
  split; [reflexivity |]. split; [reflexivity |]. split; [reflexivity |].
  split; [reflexivity |]. split; [| reflexivity].
  cbn. congruence.
Qed.

(** C1 (as amended).  An agent constructed with a credential patches the
    network primitives and posts the registration request at once.  The
    listeners of [setupEventListeners], the timers and the unload listener
    of [startBatchProcessing] and the session start time are not set up
    then.  If the registration promise resolves with [false], nothing is
    registered and nothing else changes.  If it resolves with [true], those
    registrations are made, the session start time is the clock's reading,
    and the model's [session_id] is the session identifier. *)
Theorem registration_gates_continuation (options : Options) (host_caps : Capabilities)
    (host_page : Page) (rd rd' : Reading) (stamp uuid : string) :
  Js.truthy_opt (opt_apiKey options) = true ->
  let w0 := Optima options host_caps host_page rd stamp uuid in
  let w_no := step w0 (rd', RegistrationSettled false) in
  let w_yes := step w0 (rd', RegistrationSettled true) in
  let sid := stamp +:+ "-" +:+ uuid in
  let ms := num_or (opt_flushInterval options) 5000 in
  head (interceptors w0) = Some XhrPatch /\
  sessionId (sdk w0) = Some sid /\
  outbox w0 = [{| tx_path := "/api/sessions"; tx_data := SessionData sid host_page (now rd);
                  tx_sync := false |}] /\
  registration_pending w0 = true /\
  gated_listeners w0 = [] /\
  gated_intervals w0 = [] /\
  pendings w0 = [] /\
  sessionStartTime (sdk w0) = None /\
  w_no = set_registration_pending false w0 /\
  gated_listeners w_yes =
    ((if readyState_complete rd' then [] else [EventsLoad])
     ++ [EventsClick; EventsVisibilityChange; BatchBeforeUnload])%list /\
  gated_intervals w_yes = [BatchFlush (Z.min ms 10000); TrimBuffers] /\
  pendings w_yes =
    ((if readyState_complete rd' then [LoadCapture] else [])
     ++ (if has_requestIdleCallback host_caps then [IdleCapture] else []))%list /\
  sessionStartTime (sdk w_yes) = Some (now rd') /\
  session_id (unifiedDataModel (sdk w_yes)) = Some sid /\
  outbox w_yes = outbox w0.
Proof.
  intros Hkey w0 w_no w_yes sid ms.
  destruct (Optima_with_key options host_caps host_page rd stamp uuid Hkey)
    as (H1 & H2 & H3 & H4 & H5 & H6 & H7 & H8 & H9 & H10 & H11 & H12 & H13).
  fold w0 in H1, H2, H3, H4, H5, H6, H7, H8, H9, H10, H11, H12, H13.
  fold sid in H2, H3. fold ms in H12.
  clearbody w0.
  assert (Hsid : Js.truthy_opt (sessionId (sdk w0)) = true).
  { rewrite H2. apply session_id_truthy. }
  destruct (registration_accepted w0 rd' H4 Hsid H9 H10 H11)
    as (A1 & A2 & A3 & A4 & A5 & A6).
  fold w_yes in A1, A2, A3, A4, A5, A6.
  rewrite H5 in A1. rewrite H6, H12 in A2. rewrite H7, H13 in A3. rewrite H2 in A5.
  pose proof (registration_refused w0 rd' H4) as Hno. fold w_no in Hno.
  refine (conj H1 (conj H2 (conj H3 (conj H4 (conj H5 (conj H6 (conj H7 (conj H8
            (conj Hno (conj A1 (conj A2 (conj A3 (conj A4 (conj A5 A6)))))))))))))).
Qed.

Lemma registration_witness :
  Js.truthy_opt (opt_apiKey (options_of (Some "key"))) = true /\
  registration_pending
    (Optima (options_of (Some "key")) caps_full page0 (rd_at 1000100 Visible)
            "lq1x" "u-u-i-d") = true.
Proof.
  split; [reflexivity |].
  exact (proj1 (proj2 (proj2 (proj2
    (registration_gates_continuation (options_of (Some "key")) caps_full page0
       (rd_at 1000100 Visible) (rd_at 1000200 Visible) "lq1x" "u-u-i-d" eq_refl))))).
Defined.

(** With the registration refused, the vitals observers and the network
    patches made at construction are in place all the same, and one LCP
    entry followed by a tick of the periodic flush transmits the unified
    model. *)
Lemma activation_gating_counterexample :
  let lcp := (rd_at 1000300 Visible, Observe 0 (LcpBatch [lcp_at 800])) in
  let tick := (rd_at 1005000 Visible, Tick 1) in
  observers w_refused = [ObsLCP 0; ObsFID; ObsCLS 0; ObsINP 0; ObsLongTask] /\
  interceptors w_refused = [XhrPatch; FetchPatch] /\
  intervals w_refused = [CollectResources; PeriodicFlush 5000; PeriodicFlush 5000] /\
  stored_LCP (sdk (run w_refused [lcp])) = Some 800 /\
  collect_count (run w_refused [lcp; tick]) = 1%nat.
Proof. vm_compute. repeat split; reflexivity. Qed.

(** ** Further properties of the agent's methods *)

(** The session identifier and the batch configuration are written by the
    constructor and [createSession] only: no signal the host delivers
    afterwards changes either. *)
Theorem session_identity_is_stable (w : World) (evs : list (Reading * Signal)) :
  sessionId (sdk (run w evs)) = sessionId (sdk w) /\
  batchConfig (sdk (run w evs)) = batchConfig (sdk w).
Proof. destruct (persists_run evs w) as [a k _ _ _ _ _ _ _]. split; assumption. Qed.

Lemma instrumented_fetch_transparent_witness :
  (forall h, FetchMonitor.InString "https://api.example/items" <> FetchMonitor.InObject h) /\
  FetchMonitor.returned
    (FetchMonitor.instrumented_fetch (fun _ _ => 7%nat) 1000
       (FetchMonitor.InString "https://api.example/items") None) = Normal 7%nat.
Proof.
  assert (H : forall h, FetchMonitor.InString "https://api.example/items"
                        <> FetchMonitor.InObject h) by (intros h; discriminate).
  split; [exact H |].
  exact (proj1 (instrumented_fetch_transparent (fun _ _ => 7%nat) 1000
                  (FetchMonitor.InString "https://api.example/items") None H)).
Defined.

(** A call whose URL contains one of the agent's five legacy paths is
    handed to the original [fetch] untouched and leaves no record. *)
Theorem own_calls_are_not_captured {P}
    (originalFetch : FetchMonitor.Input -> option FetchMonitor.Init -> P)
    (t : Z) (input : FetchMonitor.Input) (init : option FetchMonitor.Init)
    (url path : string) :
  In path FetchMonitor.own_paths ->
  Js.includes path url = true ->
  input = FetchMonitor.InString url \/ (exists m, input = FetchMonitor.InRequest url m) ->
  let r := FetchMonitor.instrumented_fetch originalFetch t input init in
  FetchMonitor.capture r = None /\
  FetchMonitor.returned r = Normal (originalFetch input init) /\
  FetchMonitor.original_calls r = [(input, init)].
Proof.
  intros Hp Hinc Hin r.
  assert (Hown : FetchMonitor.is_own_call url = true).
  { unfold FetchMonitor.is_own_call. apply existsb_exists. exists path. split; assumption. }
  subst r. unfold FetchMonitor.instrumented_fetch.
  destruct Hin as [-> | [m ->]]; rewrite Hown; repeat split; reflexivity.
Qed.

Lemma own_calls_witness :
  In "/api/events" FetchMonitor.own_paths /\
  FetchMonitor.capture
    (FetchMonitor.instrumented_fetch (fun _ _ => 7%nat) 1000
       (FetchMonitor.InString "http://localhost:3000/api/events") None) = None.
Proof.
  assert (H : In "/api/events" FetchMonitor.own_paths) by (simpl; tauto).
  split; [exact H |].
  exact (proj1 (own_calls_are_not_captured (fun _ _ => 7%nat) 1000
                  (FetchMonitor.InString "http://localhost:3000/api/events") None
                  "http://localhost:3000/api/events" "/api/events" H eq_refl
                  (or_introl eq_refl))).
Defined.

(** [_getResourceType] classifies every entry into one of eight types. *)
Theorem getResourceType_is_one_of_eight (resource : ResourceEntry) :
  In (_getResourceType resource) resource_types.
Proof.
  unfold _getResourceType, resource_types.
  repeat match goal with
         | |- context [if ?b then _ else _] => destruct b
         end; simpl; tauto.
Qed.

(** Running the aggregator twice is running it once: the first run empties
    the web-vital buffer. *)
Theorem updateWebVitals_idempotent (s : Sdk) :
  webVitals (buffer (_updateWebVitalsInUnifiedModel s)) = [] /\
  _updateWebVitalsInUnifiedModel (_updateWebVitalsInUnifiedModel s) =
  _updateWebVitalsInUnifiedModel s.
Proof. split; reflexivity. Qed.

Lemma updateWebVitals_keeps_FID_witness :
  let s := sdk (run w_registered
                  [(rd_at 1000300 Visible, Observe 1 (TimingBatch [input_at 100 110]));
                   (rd_at 1000400 Visible,
                    Cmd (CmdEvent "core_web_vital" (DataVital (vital_data "FID" 99)) false))]) in
  value <$> FID (web_vitals (unifiedDataModel s)) = Some 10 /\
  value <$> FID (web_vitals (unifiedDataModel (_updateWebVitalsInUnifiedModel s))) = Some 10.
Proof.
  cbv zeta.
  set (s := sdk (run w_registered _)).
  assert (H : exists r, FID (web_vitals (unifiedDataModel s)) = Some r /\ value r = 10)
    by (vm_compute; eexists; split; reflexivity).
  destruct H as (r & Hr & Hv). clearbody s.
  rewrite (updateWebVitals_keeps_FID s r Hr), Hr. simpl. rewrite Hv. split; reflexivity.
Defined.

Lemma merge_vital_LCP_ge m ev v :
  (exists r, LCP m = Some r /\ v <= value r) ->
  exists r, LCP (merge_vital m ev) = Some r /\ v <= value r.
Proof.
  intros (r & Hr & Hv). unfold merge_vital.
  destruct (event_data ev) as [d | tag]; [| eauto].
  destruct (negb (Js.truthy (vd_name d))); [eauto |].
  destruct (String.eqb (vd_name d) "LCP").
  { rewrite Hr. destruct (vd_value d >? value r) eqn:E; [| eauto].
    rewrite Z.gtb_ltb in E. apply Z.ltb_lt in E.
    eexists; split; [reflexivity |]. simpl. lia. }
  destruct (String.eqb (vd_name d) "FID").
  { destruct (FID m); eauto. }
  destruct (String.eqb (vd_name d) "CLS").
  { destruct (CLS m); [destruct (_ >? _) |]; eauto. }
  destruct (String.eqb (vd_name d) "INP"); [| eauto].
  destruct (INP m); [destruct (_ >? _) |]; eauto.
Qed.

Lemma merge_vitals_LCP_ge l : forall m v,
  (exists r, LCP m = Some r /\ v <= value r) ->
  exists r, LCP (fold_left merge_vital l m) = Some r /\ v <= value r.
Proof.
  induction l as [| ev l IH]; intros m v H; simpl; [exact H |].
  apply IH, merge_vital_LCP_ge, H.
Qed.

Lemma merge_vital_LCP_event m ev d :
  event_data ev = DataVital d -> vd_name d = "LCP" ->
  exists r, LCP (merge_vital m ev) = Some r /\ vd_value d <= value r.
Proof.
  intros Hd Hn. unfold merge_vital. rewrite Hd, Hn. cbn.
  destruct (LCP m) as [r |] eqn:E.
  - destruct (vd_value d >? value r) eqn:G.
    + eexists; split; [reflexivity |]. simpl. lia.
    + rewrite Z.gtb_ltb in G. apply Z.ltb_ge in G. exists r. split; [exact E | exact G].
  - eexists; split; [reflexivity |]. simpl. lia.
Qed.

(** The aggregator keeps the largest LCP: after it has run, the stored LCP
    value is at least the value of every LCP event that was buffered, and at
    least the value stored before. *)
Theorem aggregator_keeps_largest_LCP (s : Sdk) :
  let s' := _updateWebVitalsInUnifiedModel s in
  (forall ev d, In ev (webVitals (buffer s)) -> event_data ev = DataVital d ->
     vd_name d = "LCP" ->
     exists r, LCP (web_vitals (unifiedDataModel s')) = Some r /\ vd_value d <= value r) /\
  (forall r0, LCP (web_vitals (unifiedDataModel s)) = Some r0 ->
     exists r, LCP (web_vitals (unifiedDataModel s')) = Some r /\ value r0 <= value r).
Proof.
  cbv zeta. unfold _updateWebVitalsInUnifiedModel.
  cbn [unifiedDataModel with_buffer with_model web_vitals with_web_vitals].
  generalize (web_vitals (unifiedDataModel s)) as m.
  generalize (webVitals (buffer s)) as l. clear s.
  intros l m. split.
  - revert m. induction l as [| e l IH]; intros m ev d Hin Hd Hn; [inversion Hin |].
    simpl. destruct Hin as [<- | Hin].
    + apply merge_vitals_LCP_ge. eapply merge_vital_LCP_event; eassumption.
    + eapply IH; eassumption.
  - intros r0 Hr0. apply merge_vitals_LCP_ge. exists r0. split; [exact Hr0 | lia].
Qed.

(** *** The network-call buffer *)

Lemma slice_to_nonneg {A} (n : Z) (l : list A) :
  0 <= n -> Js.slice_to n l = take (Z.to_nat n) l.
Proof.
  intros Hn. unfold Js.slice_to.
  replace (n <? 0) with false by (symmetry; apply Z.ltb_ge; exact Hn).
  destruct (Z.le_gt_cases n (Z.of_nat (length l))).
  - rewrite Z.min_l by assumption. reflexivity.
  - rewrite Z.min_r by lia. rewrite Nat2Z.id.
    rewrite !take_ge by lia. reflexivity.
Qed.

Lemma slice_from_nonneg {A} (n : Z) (l : list A) :
  0 <= n -> Js.slice_from n l = drop (Z.to_nat n) l.
Proof.
  intros Hn. unfold Js.slice_from.
  replace (n <? 0) with false by (symmetry; apply Z.ltb_ge; exact Hn).
  destruct (Z.le_gt_cases n (Z.of_nat (length l))).
  - rewrite Z.min_l by assumption. reflexivity.
  - rewrite Z.min_r by lia. rewrite Nat2Z.id.
    rewrite !drop_ge by lia. reflexivity.
Qed.

Lemma flushAjaxCalls_split (useBeacon : bool) (rd : Reading) (s : Sdk) :
  0 <= maxAjaxCallsPerBatch (batchConfig s) ->
  let cap := Z.to_nat (maxAjaxCallsPerBatch (batchConfig s)) in
  let calls := ajaxCalls (buffer s) in
  let r := flushAjaxCalls useBeacon rd s in
  ajaxCalls (buffer (fst r)) = drop cap calls /\
  snd r = match calls with
          | [] => []
          | _ => [{| tx_path := "/api/ajax-calls";
                     tx_data := AjaxBatch (sessionId s) (take cap calls) (now rd)
                                          (Z.of_nat (length (take cap calls)));
                     tx_sync := useBeacon |}]
          end /\
  (take cap calls ++ ajaxCalls (buffer (fst r)))%list = calls.
Proof.
  intros Hcap. cbv zeta. unfold flushAjaxCalls.
  destruct (ajaxCalls (buffer s)) as [| c calls'] eqn:E.
  - cbn [fst snd]. rewrite E, drop_nil, take_nil. repeat split; reflexivity.
  - cbn [fst snd with_state with_buffer buffer ajaxCalls set_ajaxCalls].
    rewrite slice_to_nonneg, slice_from_nonneg by exact Hcap.
    repeat split; try reflexivity. apply take_drop.
Qed.

(** [flushAjaxCalls] splits the buffer in two without losing or reordering
    a record: the batch it transmits is the oldest
    [maxAjaxCallsPerBatch] records, the buffer keeps the rest, and the
    batch's [count] is its length.  On an empty buffer it does nothing. *)
Theorem flushAjaxCalls_partitions (useBeacon : bool) (rd : Reading) (s : Sdk) :
  0 <= maxAjaxCallsPerBatch (batchConfig s) ->
  let cap := Z.to_nat (maxAjaxCallsPerBatch (batchConfig s)) in
  let calls := ajaxCalls (buffer s) in
  let r := flushAjaxCalls useBeacon rd s in
  ajaxCalls (buffer (fst r)) = drop cap calls /\
  snd r = match calls with
          | [] => []
          | _ => [{| tx_path := "/api/ajax-calls";
                     tx_data := AjaxBatch (sessionId s) (take cap calls) (now rd)
                                          (Z.of_nat (length (take cap calls)));
                     tx_sync := useBeacon |}]
          end /\
  (take cap calls ++ ajaxCalls (buffer (fst r)))%list = calls.
Proof. exact (flushAjaxCalls_split useBeacon rd s). Qed.

Lemma flushAjaxCalls_witness :
  0 <= maxAjaxCallsPerBatch (batchConfig (sdk w_registered)) /\
  snd (flushAjaxCalls true (rd_at 1000500 Visible) (sdk w_registered)) = [].
Proof.
  assert (H : 0 <= maxAjaxCallsPerBatch (batchConfig (sdk w_registered)))
    by (vm_compute; discriminate).
  split; [exact H |].
  pose proof (proj1 (proj2 (flushAjaxCalls_partitions true (rd_at 1000500 Visible)
                              (sdk w_registered) H))) as E.
  rewrite E. vm_compute. reflexivity.
Defined.

(** With a session, the network-call buffer never reaches
    [maxAjaxCallsPerBatch]: a record that would fill it makes
    [storeAjaxCallData] transmit the whole buffer as one batch, in order, and
    leave it empty; any other record is appended and nothing is sent.  The
    call returns in both cases. *)
Theorem ajax_buffer_stays_below_batch_size (rd : Reading) (c : AjaxCall) (s : Sdk) :
  Js.truthy_opt (sessionId s) = true ->
  Z.of_nat (length (ajaxCalls (buffer s))) < maxAjaxCallsPerBatch (batchConfig s) ->
  let cap := maxAjaxCallsPerBatch (batchConfig s) in
  let calls := (ajaxCalls (buffer s) ++ [c])%list in
  exists r, storeAjaxCallData rd c s = Normal r /\
  Z.of_nat (length (ajaxCalls (buffer (fst r)))) < cap /\
  (if Z.of_nat (length calls) <? cap
   then ajaxCalls (buffer (fst r)) = calls /\ snd r = []
   else ajaxCalls (buffer (fst r)) = [] /\
        snd r = [{| tx_path := "/api/ajax-calls";
                    tx_data := AjaxBatch (sessionId s) calls (now rd) cap;
                    tx_sync := false |}]).
Proof.
  intros Hsid Hlt cap calls. unfold storeAjaxCallData. rewrite Hsid.
  cbn [batchConfig with_buffer buffer ajaxCalls set_ajaxCalls]. fold cap. fold calls.
  assert (Hlen : Z.of_nat (length calls) = Z.of_nat (length (ajaxCalls (buffer s))) + 1).
  { subst calls. rewrite length_app. simpl. lia. }
  destruct (cap <=? Z.of_nat (length calls)) eqn:E.
  - apply Z.leb_le in E. eexists. split; [reflexivity |].
    assert (Hcap : Z.of_nat (length calls) = cap) by (subst cap; lia).
    replace (Z.of_nat (length calls) <? cap) with false
      by (symmetry; apply Z.ltb_ge; lia).
    set (s1 := with_buffer _ s).
    assert (H0 : 0 <= maxAjaxCallsPerBatch (batchConfig s1)) by (subst s1 cap; simpl; lia).
    destruct (flushAjaxCalls_split false rd s1 H0) as (F1 & F2 & _).
    assert (Hc : ajaxCalls (buffer s1) = calls) by reflexivity.
    assert (Hk : Z.to_nat (maxAjaxCallsPerBatch (batchConfig s1)) = length calls).
    { change (maxAjaxCallsPerBatch (batchConfig s1)) with cap. lia. }
    rewrite Hc, Hk in F1, F2. rewrite drop_all in F1. rewrite firstn_all in F2.
    rewrite F1, F2. simpl. split; [subst cap; lia |].
    split; [reflexivity |].
    destruct calls as [| c0 calls']; [simpl in Hlen; lia |].
    rewrite Hcap. reflexivity.
  - apply Z.leb_gt in E. eexists. split; [reflexivity |].
    replace (Z.of_nat (length calls) <? cap) with true
      by (symmetry; apply Z.ltb_lt; lia).
    cbn [fst snd with_buffer buffer ajaxCalls set_ajaxCalls].
    split; [exact E | split; reflexivity].
Qed.

Lemma ajax_buffer_witness :
  Js.truthy_opt (sessionId (sdk w_registered)) = true /\
  Z.of_nat (length (ajaxCalls (buffer (sdk w_registered))))
    < maxAjaxCallsPerBatch (batchConfig (sdk w_registered)) /\
  exists r, storeAjaxCallData (rd_at 1000500 Visible) (sample_call 1) (sdk w_registered)
              = Normal r /\
            Z.of_nat (length (ajaxCalls (buffer (fst r))))
              < maxAjaxCallsPerBatch (batchConfig (sdk w_registered)).
Proof.
  assert (H1 : Js.truthy_opt (sessionId (sdk w_registered)) = true) by reflexivity.
  assert (H2 : Z.of_nat (length (ajaxCalls (buffer (sdk w_registered))))
               < maxAjaxCallsPerBatch (batchConfig (sdk w_registered)))
    by (vm_compute; reflexivity).
  split; [exact H1 | split; [exact H2 |]].
  destruct (ajax_buffer_stays_below_batch_size (rd_at 1000500 Visible) (sample_call 1)
              (sdk w_registered) H1 H2) as (r & E & Hlt & _).
  exists r. split; [exact E | exact Hlt].
Defined.

Lemma mergePreSession_spec (s : Sdk) :
  let s' := mergePreSessionAjaxCalls s in
  ajaxCalls (buffer s') =
    (ajaxCalls (buffer s) ++ default [] (preSessionAjaxCalls (buffer s)))%list /\
  preSessionAjaxCalls (buffer s') = (fun _ => []) <$> preSessionAjaxCalls (buffer s) /\
  events (buffer s') = events (buffer s) /\
  buf_resources (buffer s') = buf_resources (buffer s) /\
  webVitals (buffer s') = webVitals (buffer s) /\
  unifiedDataModel s' = unifiedDataModel s /\
  mergePreSessionAjaxCalls s' = s'.
Proof.
  cbv zeta. unfold mergePreSessionAjaxCalls.
  destruct (preSessionAjaxCalls (buffer s)) as [[| c pre] |] eqn:E.
  - rewrite E. cbn [default]. rewrite app_nil_r. repeat split; reflexivity.
  - repeat split; reflexivity.
  - rewrite E. cbn [default]. rewrite app_nil_r. repeat split; reflexivity.
Qed.

(** [mergePreSessionAjaxCalls] appends the pre-session records to the
    main buffer in their order and empties the pre-session area, which
    stays absent where it was absent; the other buffers are untouched and a
    second merge changes nothing. *)
Theorem mergePreSession_moves_all (s : Sdk) :
  let s' := mergePreSessionAjaxCalls s in
  ajaxCalls (buffer s') =
    (ajaxCalls (buffer s) ++ default [] (preSessionAjaxCalls (buffer s)))%list /\
  preSessionAjaxCalls (buffer s') = (fun _ => []) <$> preSessionAjaxCalls (buffer s) /\
  events (buffer s') = events (buffer s) /\
  buf_resources (buffer s') = buf_resources (buffer s) /\
  webVitals (buffer s') = webVitals (buffer s) /\
  unifiedDataModel s' = unifiedDataModel s /\
  mergePreSessionAjaxCalls s' = s'.
Proof. exact (mergePreSession_spec s). Qed.

(** On the agent constructed without a credential the holding area was
    never created, and a record stored there would throw; no interceptor
    exists to store one. *)
Example storeAjaxCallData_without_area :
  storeAjaxCallData (rd_at 1000150 Visible) (sample_call 1) (sdk w_nokey)
    = Throw (TypeError "Cannot read properties of undefined (reading 'push')") /\
  interceptors w_nokey = [].
Proof. vm_compute. split; reflexivity. Qed.

Lemma flushAjaxCalls_keeps_preSession b rd s :
  preSessionAjaxCalls (buffer (fst (flushAjaxCalls b rd s))) = preSessionAjaxCalls (buffer s).
Proof. unfold flushAjaxCalls. destruct (ajaxCalls (buffer s)); reflexivity. Qed.

(** With a session, [storeAjaxCallData] returns and leaves the pre-session
    area alone. *)
Lemma storeAjaxCallData_with_session rd c s :
  Js.truthy_opt (sessionId s) = true ->
  exists r, storeAjaxCallData rd c s = Normal r /\
            preSessionAjaxCalls (buffer (fst r)) = preSessionAjaxCalls (buffer s).
Proof.
  intros Hs. unfold storeAjaxCallData. rewrite Hs. cbv zeta.
  match goal with |- context [if ?b then _ else _] => destruct b end;
    eexists; (split; [reflexivity |]).
  - rewrite flushAjaxCalls_keeps_preSession. reflexivity.
  - reflexivity.
Qed.

(** The pre-session branch of [storeAjaxCallData] is never taken.  On an
    agent as constructed, whatever the host has delivered since, a network
    patch is installed only where the session identifier is set: the
    constructor installs the patches and sets the identifier in the same
    turn, and without a credential it installs none.  So every record an
    interceptor hands over is stored by the session branch, the call
    returns, and the pre-session area is left as it was. *)
Theorem network_records_never_wait_for_a_session (options : Options)
    (host_caps : Capabilities) (host_page : Page) (rd : Reading) (stamp uuid : string)
    (evs : list (Reading * Signal)) (k : nat) (rd' : Reading) (call : AjaxCall) :
  let w := run (Optima options host_caps host_page rd stamp uuid) evs in
  is_Some (interceptors w !! k) ->
  Js.truthy_opt (sessionId (sdk w)) = true /\
  exists r, storeAjaxCallData rd' call (sdk w) = Normal r /\
            preSessionAjaxCalls (buffer (fst r)) = preSessionAjaxCalls (buffer (sdk w)).
Proof.
  intros w Hk.
  assert (Hsid : Js.truthy_opt (sessionId (sdk w)) = true).
  { destruct (Js.truthy_opt (opt_apiKey options)) eqn:Hkey.
    - destruct (Optima_with_key options host_caps host_page rd stamp uuid Hkey)
        as (_ & E & _).
      subst w. rewrite (p_sessionId _ _ (persists_run evs _)), E.
      apply session_id_truthy.
    - pose proof (inert_run evs _ (inert_Optima options host_caps host_page rd stamp uuid Hkey))
        as (_ & _ & _ & Hi & _).
      fold w in Hi. rewrite Hi in Hk. destruct Hk as [x Hx]. discriminate. }
  split; [exact Hsid | apply storeAjaxCallData_with_session, Hsid].
Qed.

Lemma network_records_witness :
  is_Some (interceptors (run w_key []) !! 0%nat) /\
  Js.truthy_opt (sessionId (sdk (run w_key []))) = true.
Proof.
  assert (H : is_Some (interceptors (run w_key []) !! 0%nat)) by (vm_compute; eauto).
  split; [exact H |].
  exact (proj1 (network_records_never_wait_for_a_session (options_of (Some "key")) caps_full
                  page0 (rd_at 1000100 Visible) "lq1x" "u-u-i-d" [] 0%nat
                  (rd_at 1000150 Visible) (sample_call 1) H)).
Defined.

(** *** Flushing with a session *)





(** *** Key deduplication and trimming *)

(** With key deduplication enabled and its map initialised, a resource
    whose key has not been seen is accepted and its key recorded; from then
    on every resource with that key is rejected, however late it comes: the
    recorded time is never compared with the clock. *)
Theorem dedup_rejects_every_later_match (rd rd' : Reading) (r1 r2 : Resource) (s : Sdk)
    (m : gmap string Z) :
  resourceDedupingEnabled (batchConfig s) = Some true ->
  resourceHashMap (collectionState s) = Some m ->
  seen m (hashResource r1) = false ->
  now rd <> 0 ->
  hashResource r2 = hashResource r1 ->
  exists s1,
    shouldCollectResource rd r1 s = Normal (true, s1) /\
    resourceHashMap (collectionState s1) = Some (<[hashResource r1 := now rd]> m) /\
    shouldCollectResource rd' r2 s1 = Normal (false, s1).
Proof.
  intros He Hm Hseen Hnow Hhash.
  unfold shouldCollectResource. rewrite He, Hm, Hseen. cbn [default].
  eexists. split; [reflexivity |]. split; [reflexivity |].
  cbn [batchConfig with_state collectionState resourceHashMap set_resourceHashMap].
  rewrite He. cbn [default]. rewrite Hhash.
  unfold seen. rewrite lookup_insert_eq.
  destruct (now rd =? 0) eqn:E; [apply Z.eqb_eq in E; contradiction |]. reflexivity.
Qed.

Lemma dedup_witness :
  let s := with_deduping ∅ (sdk w_registered) in
  let r1 := processedResource (script_entry "https://cdn.example/app.js?v=1" 10) in
  let r2 := processedResource (script_entry "https://cdn.example/app.js?v=2" 20) in
  hashResource r2 = hashResource r1 /\
  exists s1, shouldCollectResource (rd_at 1003000 Visible) r1 s = Normal (true, s1) /\
             shouldCollectResource (rd_at 9003000 Visible) r2 s1 = Normal (false, s1).
Proof.
  cbv zeta. split; [reflexivity |].
  assert (Hs : seen ∅ (hashResource (processedResource
                 (script_entry "https://cdn.example/app.js?v=1" 10))) = false)
    by (unfold seen; rewrite lookup_empty; reflexivity).
  destruct (dedup_rejects_every_later_match (rd_at 1003000 Visible) (rd_at 9003000 Visible)
              (processedResource (script_entry "https://cdn.example/app.js?v=1" 10))
              (processedResource (script_entry "https://cdn.example/app.js?v=2" 20))
              (with_deduping ∅ (sdk w_registered)) ∅
              eq_refl eq_refl Hs ltac:(discriminate) eq_refl) as (s1 & A & _ & B).
  exists s1. split; assumption.
Defined.

Lemma Optima_config options host_caps host_page rd stamp uuid :
  let cfg := batchConfig (sdk (Optima options host_caps host_page rd stamp uuid)) in
  maxBufferSize cfg = None /\ resourceDedupingEnabled cfg = None /\
  maxAjaxCallsPerBatch cfg = 50.
Proof.
  cbv zeta.
  destruct options as [[[| c k] |] ep fi];
    destruct host_caps as [c1 c2 c3 c4 c5 c6 nav];
    destruct c1, c2, c3, c4, c5, c6, nav as [n |];
    vm_compute; repeat split; reflexivity.
Qed.

(** On every agent the constructor builds, whatever the options and
    whatever the host has delivered since, [trimBuffers] drops nothing and
    [shouldCollectResource] accepts every resource without recording it:
    the configuration carries neither a buffer size nor the deduplication
    switch. *)
Theorem constructed_agent_never_trims_or_dedups (options : Options)
    (host_caps : Capabilities) (host_page : Page) (rd rd' : Reading) (stamp uuid : string)
    (evs : list (Reading * Signal)) (r : Resource) :
  let s := sdk (run (Optima options host_caps host_page rd stamp uuid) evs) in
  trimBuffers s = s /\ shouldCollectResource rd' r s = Normal (true, s).
Proof.
  cbv zeta.
  destruct (Optima_config options host_caps host_page rd stamp uuid) as (A & B & _).
  pose proof (p_batchConfig _ _
                (persists_run evs (Optima options host_caps host_page rd stamp uuid))) as E.
  set (s := sdk (run _ evs)) in *. clearbody s. rewrite <- E in A, B.
  unfold trimBuffers, shouldCollectResource. rewrite A, B. split; reflexivity.
Qed.

(** *** Layout shift and interaction observers *)

(** One pass of the layout-shift callback over its entries, for any type
    of scores and any addition on them: the running CLS value and the value
    of the current visibility session each receive the scores of the shifts
    that had no recent input, added one by one in the order of the entries,
    and those shifts are appended to the two lists of entries; a shift that
    had recent input adds nothing.  Neither the time of the last report nor
    the start of the visibility session moves. *)
Theorem cls_accumulates_in_order {Num} (add : Num -> Num -> Num)
    (entries : list (ShiftEntry Num)) (c : ClsState Num) :
  let counted := counted_shifts entries in
  let c' := cls_accumulate add entries c in
  clsValue c' = fold_left add (map shift_value counted) (clsValue c) /\
  sessionClsValue c' = fold_left add (map shift_value counted) (sessionClsValue c) /\
  clsEntries c' = (clsEntries c ++ counted)%list /\
  sessionEntries c' =
    (sessionEntries c ++ map (fun e => (shift_value e, shift_startTime e)) counted)%list /\
  lastCLSReport c' = lastCLSReport c /\
  cls_sessionStartTime c' = cls_sessionStartTime c.
Proof.
  cbv zeta. unfold cls_accumulate, counted_shifts. revert c.
  induction entries as [| e entries IH]; intros c; cbn [fold_left List.filter].
  - cbn. rewrite !app_nil_r. repeat split; reflexivity.
  - destruct (IH (cls_add add c e)) as (A & B & C & D & E & F).
    rewrite A, B, C, D, E, F. unfold cls_add.
    destruct (hadRecentInput e); cbn [negb]; [repeat split; reflexivity |].
    cbn [clsValue sessionClsValue clsEntries sessionEntries lastCLSReport
         cls_sessionStartTime map fold_left].
    rewrite <- !app_assoc. repeat split; reflexivity.
Qed.

Lemma inp_fold page rd entries : forall m s,
  fst (fold_left (inp_one page rd) entries (m, s)) =
  fold_left Z.max (tracked_durations entries) m.
Proof.
  unfold tracked_durations.
  induction entries as [| e entries IH]; intros m s; [reflexivity |].
  cbn [fold_left List.filter].
  destruct (inp_one page rd (m, s) e) as [m' s'] eqn:E. rewrite IH.
  unfold inp_one in E.
  destruct (existsb (String.eqb (et_name e)) interaction_names); cbn [negb] in E.
  - cbn [map fold_left].
    destruct (et_processingEnd e - et_startTime e >? m) eqn:G; inversion E; subst;
      rewrite Z.gtb_ltb in G.
    + apply Z.ltb_lt in G. rewrite Z.max_r by lia. reflexivity.
    + apply Z.ltb_ge in G. rewrite Z.max_l by lia. reflexivity.
  - inversion E; subst. reflexivity.
Qed.

Lemma fold_max_ge l : forall m, m <= fold_left Z.max l m.
Proof.
  induction l as [| x l IH]; intros m; simpl; [lia |].
  specialize (IH (Z.max m x)). lia.
Qed.

(** The event-timing callback keeps in [maxDelay] the largest duration
    among the tracked interaction kinds seen so far; entries of other kinds
    are skipped, and the value never goes down. *)
Theorem inp_callback_tracks_worst (page : Page) (rd : Reading)
    (entries : list EventTiming) (m : Z) (s : Sdk) :
  fst (inp_callback page rd entries m s) = fold_left Z.max (tracked_durations entries) m /\
  m <= fst (inp_callback page rd entries m s).
Proof.
  unfold inp_callback. rewrite inp_fold. split; [reflexivity | apply fold_max_ge].
Qed.
